(** * Baraka finance tracker: limits store, auto refresh and transactions page

    A shallow embedding of the client-side cache layer of the finance
    tracker:
    - [src/finance-tracker/src/pages/Transactions.vue] (the page script, the
      layout store and the limits store that are bundled in that file),
    - [src/finance-tracker/src/composables/UI/useAutoRefresh.ts].

    Asynchronous functions are written in a small resumption monad
    ([Async]): a program is a finite tree whose nodes read or write the
    reactive state, emit an observable event (console, toast), or [Await] a
    request.  One definition of each function is given two readings: [run]
    answers every request at once (a call executed in isolation), [start]
    runs the synchronous prefix up to the first [await], which is what lets
    a second call be issued while the first one is still pending. *)

From Stdlib Require Import ZArith List String Ascii Bool Lia DecimalString DecimalZ.
From Stdlib Require Import Sorting.Permutation Sorting.Sorted.
Import ListNotations.

Open Scope bool_scope.
Open Scope list_scope.
Open Scope string_scope.

(* ================================================================= *)
(** ** JavaScript values used by the sources *)

Module Js.

(** JavaScript strings are modelled by [string]; each [ascii] stands for
    one UTF-16 code unit below 256. *)

Definition dquote : ascii := "034"%char.
Definition backslash : ascii := "092"%char.

(** Primitive property values of a plain key/value object. Numbers are
    the integral ones. *)
Inductive JsPrim : Type :=
| JUndefined
| JNull
| JBool (b : bool)
| JNumber (z : Z)
| JString (s : string).

(** A plain object: its own enumerable properties in insertion order
    (property names are not array indices, so insertion order is the
    enumeration order). *)
Definition JsObject : Type := list (string * JsPrim).

(** *** [JSON.stringify] *)

Definition hex_digit (n : nat) : ascii :=
  match n with
  | 0 => "0" | 1 => "1" | 2 => "2" | 3 => "3" | 4 => "4" | 5 => "5"
  | 6 => "6" | 7 => "7" | 8 => "8" | 9 => "9" | 10 => "a" | 11 => "b"
  | 12 => "c" | 13 => "d" | 14 => "e" | _ => "f"
  end%char.

(** One code unit of QuoteJSONString. *)
Definition escape_char (c : ascii) : string :=
  if Ascii.eqb c "008" then "\b"
  else if Ascii.eqb c "009" then "\t"
  else if Ascii.eqb c "010" then "\n"
  else if Ascii.eqb c "012" then "\f"
  else if Ascii.eqb c "013" then "\r"
  else if Ascii.eqb c dquote then String backslash (String dquote "")
  else if Ascii.eqb c backslash then "\\"
  else if Nat.ltb (nat_of_ascii c) 32 then
    "\u00" ++ String (hex_digit (Nat.div (nat_of_ascii c) 16))
                (String (hex_digit (Nat.modulo (nat_of_ascii c) 16)) "")
  else String c "".

Fixpoint escape (s : string) : string :=
  match s with
  | EmptyString => ""
  | String c r => escape_char c ++ escape r
  end.

Definition QuoteJSONString (s : string) : string :=
  String dquote (escape s ++ String dquote "").

Definition Number_toString (z : Z) : string :=
  NilZero.string_of_int (Z.to_int z).

(** SerializeJSONProperty on a primitive: [None] is [undefined]. *)
Definition SerializeJSONProperty (v : JsPrim) : option string :=
  match v with
  | JUndefined => None
  | JNull => Some "null"
  | JBool true => Some "true"
  | JBool false => Some "false"
  | JNumber z => Some (Number_toString z)
  | JString s => Some (QuoteJSONString s)
  end.

(** The members of SerializeJSONObject: properties whose value is
    [undefined] are skipped. *)
Fixpoint members (o : JsObject) : list string :=
  match o with
  | [] => []
  | (k, v) :: r =>
      match SerializeJSONProperty v with
      | None => members r
      | Some sv => (QuoteJSONString k ++ ":" ++ sv) :: members r
      end
  end.

Fixpoint join_comma (l : list string) : string :=
  match l with
  | [] => ""
  | [x] => x
  | x :: r => x ++ "," ++ join_comma r
  end.

Definition SerializeJSONObject (o : JsObject) : string :=
  "{" ++ join_comma (members o) ++ "}".

(** [JSON.stringify(x)] for [x : T | undefined] with [T] a plain object:
    [JSON.stringify(undefined)] is [undefined]. *)
Definition JSON_stringify (x : option JsObject) : option string :=
  match x with
  | None => None
  | Some o => Some (SerializeJSONObject o)
  end.

(** [a !== b] on values that are a string or [undefined]. *)
Definition strict_neq (a b : option string) : bool :=
  match a, b with
  | None, None => false
  | Some x, Some y => negb (String.eqb x y)
  | _, _ => true
  end.

(** *** Comparing plain objects *)

(** [o[k]] on the property list: the first binding of [k]. *)
Fixpoint lookup (k : string) (o : JsObject) : option JsPrim :=
  match o with
  | [] => None
  | (k', v) :: r => if String.eqb k k' then Some v else lookup k r
  end.

(** The properties that [JSON.stringify] keeps: those whose value is not
    [undefined], in their order. *)
Fixpoint defined_fields (o : JsObject) : JsObject :=
  match o with
  | [] => []
  | (k, JUndefined) :: r => defined_fields r
  | (k, v) :: r => (k, v) :: defined_fields r
  end.

Definition prim_eqb (a b : JsPrim) : bool :=
  match a, b with
  | JUndefined, JUndefined => true
  | JNull, JNull => true
  | JBool x, JBool y => Bool.eqb x y
  | JNumber x, JNumber y => Z.eqb x y
  | JString x, JString y => String.eqb x y
  | _, _ => false
  end.

Definition field_eqb (a b : option JsPrim) : bool :=
  match a, b with
  | None, None => true
  | Some x, Some y => prim_eqb x y
  | _, _ => false
  end.

(** Structural equality as the specification words it: field by field,
    whatever the order of the fields, a field that is absent and a field
    that holds [undefined] being the same.  Two filters that are both
    missing are equal; a missing filter equals no object. *)
Definition structurally_equal (a b : option JsObject) : bool :=
  match a, b with
  | None, None => true
  | Some x, Some y =>
      let x' := defined_fields x in
      let y' := defined_fields y in
      forallb (fun k => field_eqb (lookup k x') (lookup k y'))
              (List.map fst x' ++ List.map fst y')
  | _, _ => false
  end.

(** *** Reading back what [QuoteJSONString] and [Number_toString] write *)

Definition hex_value (c : ascii) : option nat :=
  if Ascii.eqb c "0" then Some 0 else if Ascii.eqb c "1" then Some 1
  else if Ascii.eqb c "2" then Some 2 else if Ascii.eqb c "3" then Some 3
  else if Ascii.eqb c "4" then Some 4 else if Ascii.eqb c "5" then Some 5
  else if Ascii.eqb c "6" then Some 6 else if Ascii.eqb c "7" then Some 7
  else if Ascii.eqb c "8" then Some 8 else if Ascii.eqb c "9" then Some 9
  else if Ascii.eqb c "a" then Some 10 else if Ascii.eqb c "b" then Some 11
  else if Ascii.eqb c "c" then Some 12 else if Ascii.eqb c "d" then Some 13
  else if Ascii.eqb c "e" then Some 14 else if Ascii.eqb c "f" then Some 15
  else None.

(** The code unit at the head of an escaped text, and the rest. *)
Definition unescape_head (s : string) : option (ascii * string) :=
  match s with
  | EmptyString => None
  | String c r =>
      if Ascii.eqb c backslash then
        match r with
        | String x r' =>
            if Ascii.eqb x "b" then Some ("008"%char, r')
            else if Ascii.eqb x "t" then Some ("009"%char, r')
            else if Ascii.eqb x "n" then Some ("010"%char, r')
            else if Ascii.eqb x "f" then Some ("012"%char, r')
            else if Ascii.eqb x "r" then Some ("013"%char, r')
            else if Ascii.eqb x dquote then Some (dquote, r')
            else if Ascii.eqb x backslash then Some (backslash, r')
            else if Ascii.eqb x "u" then
              match r' with
              | String "0" (String "0" (String h (String l r''))) =>
                  match hex_value h, hex_value l with
                  | Some a, Some b => Some (ascii_of_nat (16 * a + b), r'')
                  | _, _ => None
                  end
              | _ => None
              end
            else None
        | EmptyString => None
        end
      else Some (c, r)
  end.

(** The characters of a decimal numeral. *)
Definition is_num_char (c : ascii) : bool :=
  Ascii.eqb c "-" || (Nat.leb 48 (nat_of_ascii c) && Nat.leb (nat_of_ascii c) 57).

Fixpoint all_num (s : string) : bool :=
  match s with
  | EmptyString => true
  | String c r => is_num_char c && all_num r
  end.

(** What follows a member inside an object: a comma or the closing brace. *)
Definition delimited (s : string) : Prop :=
  exists r, s = String "," r \/ s = String "}" r.

(** The text of an object after its first member, [l] being the members
    that remain and [t] what follows the object. *)
Definition after_first (l : JsObject) (t : string) : string :=
  match l with
  | [] => String "}" t
  | _ :: _ => String "," (join_comma (members l) ++ String "}" t)
  end.

Definition all_defined (l : JsObject) : Prop :=
  Forall (fun kv => snd kv <> JUndefined) l.

(** *** [String.prototype.trim] *)

(** WhiteSpace and LineTerminator code units below 256. *)
Definition is_whitespace (c : ascii) : bool :=
  let n := nat_of_ascii c in
  (Nat.leb 9 n && Nat.leb n 13) || Nat.eqb n 32 || Nat.eqb n 160.

Fixpoint trimStart (s : string) : string :=
  match s with
  | EmptyString => ""
  | String c r => if is_whitespace c then trimStart r else s
  end.

Fixpoint trimEnd (s : string) : string :=
  match s with
  | EmptyString => ""
  | String c r =>
      match trimEnd r with
      | EmptyString => if is_whitespace c then "" else String c ""
      | r' => String c r'
      end
  end.

Definition trim (s : string) : string := trimEnd (trimStart s).

(** *** [Date] *)

Local Open Scope Z_scope.

Definition msPerDay : Z := 86400000.
Definition msPerMinute : Z := 60000.

(** Day number (days since 1970-01-01) of a proleptic Gregorian date,
    [m] in 1..12. *)
Definition days_from_civil (y m d : Z) : Z :=
  let y := if m <=? 2 then y - 1 else y in
  let era := y / 400 in
  let yoe := y - era * 400 in
  let mp := if 2 <? m then m - 3 else m + 9 in
  let doy := (153 * mp + 2) / 5 + d - 1 in
  let doe := yoe * 365 + yoe / 4 - yoe / 100 + doy in
  era * 146097 + doe - 719468.

(** Year, month (1..12) and day of month of a day number. *)
Definition civil_from_days (z : Z) : Z * Z * Z :=
  let z := z + 719468 in
  let era := z / 146097 in
  let doe := z - era * 146097 in
  let yoe := (doe - doe / 1460 + doe / 36524 - doe / 146096) / 365 in
  let y := yoe + era * 400 in
  let doy := doe - (365 * yoe + yoe / 4 - yoe / 100) in
  let mp := (5 * doy + 2) / 153 in
  let d := doy - (153 * mp + 2) / 5 + 1 in
  let m := if mp <? 10 then mp + 3 else mp - 9 in
  ((if m <=? 2 then y + 1 else y), m, d).

(** The host: the time value returned by [new Date()] and the local time
    zone, a fixed offset in minutes east of UTC. *)
Record Host : Type := { now : Z; tzOffset : Z }.

Definition LocalTime (h : Host) (t : Z) : Z := t + tzOffset h * msPerMinute.
Definition UTC (h : Host) (t : Z) : Z := t - tzOffset h * msPerMinute.
Definition Day (t : Z) : Z := t / msPerDay.

Definition getFullYear (h : Host) (t : Z) : Z :=
  let '(y, _, _) := civil_from_days (Day (LocalTime h t)) in y.

(** [getMonth] is zero based. *)
Definition getMonth (h : Host) (t : Z) : Z :=
  let '(_, m, _) := civil_from_days (Day (LocalTime h t)) in m - 1.

(** MakeDay: the month may lie outside 0..11 and the date outside the
    month; both carry over. *)
Definition MakeDay (year month date : Z) : Z :=
  let ym := year + month / 12 in
  let mn := month mod 12 in
  days_from_civil ym (mn + 1) 1 + date - 1.

(** [new Date(year, month, date)]: local midnight of that day, as a time
    value. Years 0..99 denote 1900..1999. *)
Definition Date_ymd (h : Host) (year month date : Z) : Z :=
  let yr := if (0 <=? year) && (year <=? 99) then 1900 + year else year in
  UTC h (MakeDay yr month date * msPerDay).

Definition digit (n : Z) : ascii := hex_digit (Z.to_nat (n mod 10)).

Definition pad2 (n : Z) : string :=
  String (digit (n / 10)) (String (digit n) ""%string).

Definition pad4 (n : Z) : string :=
  String (digit (n / 1000)) (String (digit (n / 100)) (pad2 n)).

Definition pad6 (n : Z) : string :=
  String (digit (n / 100000)) (String (digit (n / 10000)) (pad4 n)).

(** The year of [toISOString]: four digits for 0..9999, otherwise a sign
    and six digits. *)
Definition iso_year (y : Z) : string :=
  if (0 <=? y) && (y <=? 9999) then pad4 y
  else if y <? 0 then String "-" (pad6 (- y))
  else String "+" (pad6 y).

(** [d.toISOString().split('T')[0]]: the UTC calendar date of the time
    value. *)
Definition toISOString_date (t : Z) : string :=
  let '(y, m, d) := civil_from_days (Day t) in
  (iso_year y ++ "-" ++ pad2 m ++ "-" ++ pad2 d)%string.

End Js.

(* ================================================================= *)
(** ** Asynchronous functions *)

(** A thrown value / a rejection reason. *)
Definition Err : Type := string.

Section AsyncDefs.

(** [St]: the reactive state the function closes over; [Req]: the
    awaitable calls it makes, indexed by the type of the value they
    resolve to; [Ev]: the events it emits (console, toasts). *)
Context {St : Type} {Req : Type -> Type} {Ev : Type}.

Inductive Async (A : Type) : Type :=
| Ret (a : A)
| Throw (e : Err)
| Get (k : St -> Async A)
| Put (s : St) (k : Async A)
| Emit (ev : Ev) (k : Async A)
| Await (R : Type) (rq : Req R) (k : Err + R -> Async A).

Arguments Ret {A} a.
Arguments Throw {A} e.
Arguments Get {A} k.
Arguments Put {A} s k.
Arguments Emit {A} ev k.
Arguments Await {A R} rq k.

Fixpoint bind {A B : Type} (m : Async A) (f : A -> Async B) : Async B :=
  match m with
  | Ret a => f a
  | Throw e => Throw e
  | Get k => Get (fun s => bind (k s) f)
  | Put s k => Put s (bind k f)
  | Emit ev k => Emit ev (bind k f)
  | Await rq k => Await rq (fun r => bind (k r) f)
  end.

(** [try { m } catch (e) { h e }] *)
Fixpoint try_catch {A : Type} (m : Async A) (h : Err -> Async A) : Async A :=
  match m with
  | Ret a => Ret a
  | Throw e => h e
  | Get k => Get (fun s => try_catch (k s) h)
  | Put s k => Put s (try_catch k h)
  | Emit ev k => Emit ev (try_catch k h)
  | Await rq k => Await rq (fun r => try_catch (k r) h)
  end.

(** [try { m } finally { f }]: [f] runs on both exits; a throw of [f]
    replaces the completion of [m]. *)
Fixpoint try_finally {A : Type} (m : Async A) (f : Async unit) : Async A :=
  match m with
  | Ret a => bind f (fun _ => Ret a)
  | Throw e => bind f (fun _ => Throw e)
  | Get k => Get (fun s => try_finally (k s) f)
  | Put s k => Put s (try_finally k f)
  | Emit ev k => Emit ev (try_finally k f)
  | Await rq k => Await rq (fun r => try_finally (k r) f)
  end.

(** [await rq]: a rejection is thrown at the await. *)
Definition await {R : Type} (rq : Req R) : Async R :=
  Await rq (fun r => match r with inl e => Throw e | inr v => Ret v end).

Definition read {A : Type} (f : St -> A) : Async A := Get (fun s => Ret (f s)).
Definition modify (f : St -> St) : Async unit := Get (fun s => Put (f s) (Ret tt)).
Definition emit (ev : Ev) : Async unit := Emit ev (Ret tt).

(** [p.catch(() => { })] *)
Definition catch_ignore (m : Async unit) : Async unit :=
  try_catch m (fun _ => Ret tt).

(** What an observer sees of a call, in order: the requests it issues and
    the events it emits. *)
Inductive Item : Type :=
| Requested (R : Type) (rq : Req R)
| Emitted (ev : Ev).

Arguments Requested {R} rq.

(** *** The synchronous prefix of a call *)

Inductive Status (A : Type) : Type :=
| Finished (r : Err + A)
| Pending (R : Type) (rq : Req R) (k : Err + R -> Async A).

Arguments Finished {A} r.
Arguments Pending {A R} rq k.

(** [start m s]: run [m] from state [s] until it completes or reaches its
    first [await]; the request of a pending call has been issued. *)
Fixpoint start {A : Type} (m : Async A) (s : St) : St * list Item * Status A :=
  match m with
  | Ret a => (s, [], Finished (inr a))
  | Throw e => (s, [], Finished (inl e))
  | Get k => start (k s) s
  | Put s' k => start k s'
  | Emit ev k =>
      let '(s', t, st) := start k s in (s', Emitted ev :: t, st)
  | Await rq k => (s, [Requested rq], Pending rq k)
  end.

(** *** A call executed in isolation *)

Section Run.
(** The collaborator that answers the requests: [serve rq w] is the
    settlement of [rq] (rejected or resolved) and the collaborator's
    next state. *)
Context {W : Type} (serve : forall R : Type, Req R -> W -> (Err + R) * W).

Record Out (A : Type) : Type := mkOut {
  o_state : St;
  o_world : W;
  o_trace : list Item;
  o_result : Err + A
}.

Arguments mkOut {A}.
Arguments o_trace {A}.

Definition observe {A : Type} (i : Item) (o : Out A) : Out A :=
  mkOut (o_state A o) (o_world A o) (i :: o_trace o) (o_result A o).

Fixpoint run {A : Type} (m : Async A) (s : St) (w : W) : Out A :=
  match m with
  | Ret a => mkOut s w [] (inr a)
  | Throw e => mkOut s w [] (inl e)
  | Get k => run (k s) s w
  | Put s' k => run k s' w
  | Emit ev k => observe (Emitted ev) (run k s w)
  | Await rq k =>
      let '(r, w') := serve _ rq w in
      observe (Requested rq) (run (k r) s w')
  end.

(** *** Two calls in flight *)

(** The rest of a call after its synchronous prefix: the pending request,
    already issued, is answered and the continuation runs to completion. *)
Definition settle {A : Type} (st : Status A) (s : St) (w : W) : Out A :=
  match st with
  | Finished r => mkOut s w [] r
  | Pending rq k => let '(r, w') := serve _ rq w in run (k r) s w'
  end.

Record Both (A B : Type) : Type := mkBoth {
  b_state : St;
  b_world : W;
  b_trace : list Item;
  b_first : Err + A;
  b_second : Err + B
}.

(** [c1] is called and runs to its first [await]; [c2] is called before
    that [await] settles and runs to its own first [await]; then the
    pending requests are answered in the order they were issued. *)
Definition concurrently {A B : Type} (c1 : Async A) (c2 : Async B)
    (s : St) (w : W) : Both A B :=
  let '(s1, t1, st1) := start c1 s in
  let '(s2, t2, st2) := start c2 s1 in
  let o1 := settle st1 s2 w in
  let o2 := settle st2 (o_state A o1) (o_world A o1) in
  mkBoth A B (o_state B o2) (o_world B o2)
    (t1 ++ t2 ++ o_trace o1 ++ o_trace o2)%list
    (o_result A o1) (o_result B o2).
End Run.

(** The number of items of a trace that satisfy [p]. *)
Definition count_items (p : Item -> bool) (t : list Item) : nat :=
  List.length (List.filter p t).

End AsyncDefs.

Arguments Async : clear implicits.
Arguments Item : clear implicits.
Arguments Ret {St Req Ev A} a.
Arguments Throw {St Req Ev A} e.
Arguments Get {St Req Ev A} k.
Arguments Put {St Req Ev A} s k.
Arguments Emit {St Req Ev A} ev k.
Arguments Await {St Req Ev A R} rq k.
Arguments Requested {Req Ev R} rq.
Arguments Emitted {Req Ev} ev.
Arguments Out : clear implicits.
Arguments mkOut {St Req Ev W A}.
Arguments o_state {St Req Ev W A}.
Arguments o_world {St Req Ev W A}.
Arguments o_trace {St Req Ev W A}.
Arguments o_result {St Req Ev W A}.
Arguments Both : clear implicits.
Arguments b_state {St Req Ev W A B}.
Arguments b_world {St Req Ev W A B}.
Arguments b_trace {St Req Ev W A B}.
Arguments b_first {St Req Ev W A B}.
Arguments b_second {St Req Ev W A B}.
Arguments Status : clear implicits.
Arguments Finished {St Req Ev A} r.
Arguments Pending {St Req Ev A R} rq k.

Notation "x <- m ;; k" := (bind m (fun x => k))
  (at level 61, m at next level, right associativity).
Notation "m ;; k" := (bind m (fun _ => k))
  (at level 61, right associativity).


(* ================================================================= *)
(** ** The limits store ([useLimitsStore], bundled in Transactions.vue) *)

(** The types of [@/composables/Limits/types] are not among the sources;
    the payloads have the fields that the store assigns. *)

Module LimitCreateData.
(** Modelled from the spec: [LimitCreateData], the payload of a create,
    with the four fields that [convertFormDataToCreateData] assigns. *)
Record t : Type := {
  category_id : string;
  amount : string;
  period_start : string;
  period_end : string
}.
End LimitCreateData.
Abbreviation LimitCreateData := LimitCreateData.t.

Module LimitUpdateData.
(** Modelled from the spec: [LimitUpdateData], the payload of an update,
    with the three fields that [convertFormDataToUpdateData] assigns. *)
Record t : Type := {
  amount : string;
  period_start : string;
  period_end : string
}.
End LimitUpdateData.
Abbreviation LimitUpdateData := LimitUpdateData.t.

Module LimitsStore.

(** Modelled from the spec: [Limit] (section 3), an identifier, a category
    reference, an amount ceiling (a decimal string), a period and a
    creation timestamp. *)
Record Limit : Type := {
  id : string;
  category_id : string;
  amount : string;
  period_start : string;
  period_end : string;
  created_at : string
}.

(** Modelled from the spec: [LimitFormData]; the store reads [budget]
    only. *)
Record LimitFormData : Type := { budget : string }.

(** Modelled from the spec: [GetLimitsParams], a filter, is a plain
    key/value object (section 6). *)
Definition GetLimitsParams : Type := Js.JsObject.

(** The refs of the store. *)
Record State : Type := {
  limits : list Limit;
  loading : bool;
  isLoaded : bool;
  currentFilter : option GetLimitsParams;
  drawerVisible : bool;
  editingLimit : option Limit
}.

Definition initial : State :=
  {| limits := []; loading := false; isLoaded := false;
     currentFilter := None; drawerVisible := false; editingLimit := None |}.

Definition set_limits (v : list Limit) (s : State) : State :=
  {| limits := v; loading := loading s; isLoaded := isLoaded s;
     currentFilter := currentFilter s; drawerVisible := drawerVisible s;
     editingLimit := editingLimit s |}.

Definition set_loading (v : bool) (s : State) : State :=
  {| limits := limits s; loading := v; isLoaded := isLoaded s;
     currentFilter := currentFilter s; drawerVisible := drawerVisible s;
     editingLimit := editingLimit s |}.

Definition set_isLoaded (v : bool) (s : State) : State :=
  {| limits := limits s; loading := loading s; isLoaded := v;
     currentFilter := currentFilter s; drawerVisible := drawerVisible s;
     editingLimit := editingLimit s |}.

Definition set_currentFilter (v : option GetLimitsParams) (s : State) : State :=
  {| limits := limits s; loading := loading s; isLoaded := isLoaded s;
     currentFilter := v; drawerVisible := drawerVisible s;
     editingLimit := editingLimit s |}.

Definition set_drawerVisible (v : bool) (s : State) : State :=
  {| limits := limits s; loading := loading s; isLoaded := isLoaded s;
     currentFilter := currentFilter s; drawerVisible := v;
     editingLimit := editingLimit s |}.

Definition set_editingLimit (v : option Limit) (s : State) : State :=
  {| limits := limits s; loading := loading s; isLoaded := isLoaded s;
     currentFilter := currentFilter s; drawerVisible := drawerVisible s;
     editingLimit := v |}.

(** The calls of [useLimitsRequests()]; the store ignores what the three
    mutations resolve to. *)
Inductive Request : Type -> Type :=
| fetchLimits (params : option GetLimitsParams) : Request (list Limit)
| addLimitRequest (limitData : LimitCreateData) : Request unit
| updateLimitRequest (id : string) (limitData : LimitUpdateData) : Request unit
| removeLimitRequest (id : string) : Request unit.

Inductive Event : Type :=
| console_error (message : string) (error : Err).

Definition Prog : Type -> Type := Async State Request Event.

(** [new Date()] is read from the host [h]. *)
Definition convertFormDataToCreateData (h : Js.Host) (formData : LimitFormData)
    (categoryId : string) : LimitCreateData :=
  let now := Js.now h in
  let year := Js.getFullYear h now in
  let month := Js.getMonth h now in
  let periodStart := Js.Date_ymd h year month 1 in
  let periodEnd := Js.Date_ymd h year (month + 1) 0 in
  {| LimitCreateData.category_id := categoryId;
     LimitCreateData.amount := budget formData;
     LimitCreateData.period_start := Js.toISOString_date periodStart;
     LimitCreateData.period_end := Js.toISOString_date periodEnd |}.

Definition convertFormDataToUpdateData (h : Js.Host) (formData : LimitFormData)
    : LimitUpdateData :=
  let now := Js.now h in
  let year := Js.getFullYear h now in
  let month := Js.getMonth h now in
  let periodStart := Js.Date_ymd h year month 1 in
  let periodEnd := Js.Date_ymd h year (month + 1) 0 in
  {| LimitUpdateData.amount := budget formData;
     LimitUpdateData.period_start := Js.toISOString_date periodStart;
     LimitUpdateData.period_end := Js.toISOString_date periodEnd |}.

(** [JSON.stringify(currentFilter.value) !== JSON.stringify(params)] *)
Definition filterChanged (current params : option GetLimitsParams) : bool :=
  Js.strict_neq (Js.JSON_stringify current) (Js.JSON_stringify params).

(** [loadLimits(params?, force = false)] *)
Definition loadLimits (params : option GetLimitsParams) (force : bool) : Prog unit :=
  current <- read currentFilter ;;
  loaded <- read isLoaded ;;
  if negb force && loaded && negb (filterChanged current params) then Ret tt
  else
    busy <- read loading ;;
    if busy then Ret tt
    else
      try_finally
        (try_catch
           (modify (set_loading true) ;;
            modify (set_currentFilter params) ;;
            fetched <- await (fetchLimits params) ;;
            modify (set_limits fetched) ;;
            modify (set_isLoaded true))
           (fun error => emit (console_error "Failed to load limits:" error)))
        (modify (set_loading false)).

Definition addLimit (limitData : LimitCreateData) : Prog unit :=
  try_finally
    (try_catch
       (modify (set_loading true) ;;
        await (addLimitRequest limitData) ;;
        current <- read currentFilter ;;
        fetched <- await (fetchLimits current) ;;
        modify (set_limits fetched))
       (fun error =>
          emit (console_error "Failed to create limit:" error) ;;
          Throw error))
    (modify (set_loading false)).

Definition updateLimit (id : string) (limitData : LimitUpdateData) : Prog unit :=
  try_finally
    (try_catch
       (modify (set_loading true) ;;
        await (updateLimitRequest id limitData) ;;
        current <- read currentFilter ;;
        fetched <- await (fetchLimits current) ;;
        modify (set_limits fetched))
       (fun error =>
          emit (console_error "Failed to update limit:" error) ;;
          Throw error))
    (modify (set_loading false)).

Definition removeLimit (id : string) : Prog unit :=
  try_finally
    (try_catch
       (modify (set_loading true) ;;
        await (removeLimitRequest id) ;;
        current <- read currentFilter ;;
        fetched <- await (fetchLimits current) ;;
        modify (set_limits fetched))
       (fun error =>
          emit (console_error "Failed to delete limit:" error) ;;
          Throw error))
    (modify (set_loading false)).

Definition editLimit (limit : Limit) : Prog unit :=
  modify (set_editingLimit (Some limit)) ;;
  modify (set_drawerVisible true).

Definition handleSubmit (h : Js.Host) (formData : LimitFormData)
    (categoryId : string) : Prog unit :=
  editing <- read editingLimit ;;
  match editing with
  | Some limit =>
      let updateData := convertFormDataToUpdateData h formData in
      updateLimit (id limit) updateData ;;
      modify (set_editingLimit None)
  | None =>
      let createData := convertFormDataToCreateData h formData categoryId in
      addLimit createData
  end ;;
  modify (set_drawerVisible false).

Definition closeForm : Prog unit :=
  modify (set_drawerVisible false) ;;
  modify (set_editingLimit None).

Definition refreshLimits : Prog unit :=
  current <- read currentFilter ;;
  loadLimits current true.

(** The condition of the first [return] of [loadLimits]: the contents are
    reused. *)
Definition cache_hit (s : State) (params : option GetLimitsParams) (force : bool) : bool :=
  negb force && isLoaded s && negb (filterChanged (currentFilter s) params).

(** The three mutations of the collection, the store function that
    performs each, and the request it sends first. *)
Inductive Mutation : Type :=
| Create (limitData : LimitCreateData)
| Update (id : string) (limitData : LimitUpdateData)
| Delete (id : string).

Definition perform (m : Mutation) : Prog unit :=
  match m with
  | Create limitData => addLimit limitData
  | Update id limitData => updateLimit id limitData
  | Delete id => removeLimit id
  end.

Definition request_of (m : Mutation) : Request unit :=
  match m with
  | Create limitData => addLimitRequest limitData
  | Update id limitData => updateLimitRequest id limitData
  | Delete id => removeLimitRequest id
  end.

(** What the [catch] block of each logs before it rethrows. *)
Definition failure_message (m : Mutation) : string :=
  match m with
  | Create _ => "Failed to create limit:"
  | Update _ _ => "Failed to update limit:"
  | Delete _ => "Failed to delete limit:"
  end.

(** A trace item that is a [fetchLimits] call. *)
Definition is_fetch (i : Item Request Event) : bool :=
  match i with
  | Requested rq =>
      match rq with
      | fetchLimits _ => true
      | _ => false
      end
  | Emitted _ => false
  end.

Definition fetches (t : list (Item Request Event)) : nat := count_items is_fetch t.

(** The part of a filter that [JSON.stringify] keeps: the properties that
    do not hold [undefined], in their order. *)
Definition stringified (params : option GetLimitsParams) : option GetLimitsParams :=
  option_map Js.defined_fields params.

End LimitsStore.

(* ================================================================= *)
(** ** The refresh scheduler ([useAutoRefresh]) *)

Module AutoRefresh.

(** The branch of [refreshAllStores] on the limits store,
    [limitsStore.refreshLimits().catch(() => { })].  The other branches of
    the [Promise.allSettled] act on stores that share no state with it. *)
Definition refreshAllStores_limits : LimitsStore.Prog unit :=
  catch_ignore LimitsStore.refreshLimits.

(** The ways [loadLimits] gets called on the store: by a caller of the
    store, by [refreshLimits], and by a tick of the scheduler. *)
Inductive LoadCall : Type :=
| UserLoad (params : option LimitsStore.GetLimitsParams) (force : bool)
| UserRefresh
| SchedulerTick.

Definition call (c : LoadCall) : LimitsStore.Prog unit :=
  match c with
  | UserLoad params force => LimitsStore.loadLimits params force
  | UserRefresh => LimitsStore.refreshLimits
  | SchedulerTick => refreshAllStores_limits
  end.

End AutoRefresh.


(* ================================================================= *)
(** ** The transactions page (script of Transactions.vue) *)

Module TransactionsPage.

(** Modelled from the spec: [Transaction] (section 3), an identifier, a
    kind (income or expense), an amount (a decimal string), a currency
    code, an optional category reference, a description, a date and a
    creation timestamp.  The types of [@/composables/Transactions/types]
    are not among the sources. *)
Record Transaction : Type := {
  id : string;
  type : string;
  amount : string;
  currency : string;
  category_id : option string;
  description : string;
  transaction_date : string;
  created_at : string
}.

(** Modelled from the spec: [GetTransactionsParams], a filter, is a plain
    key/value object (section 6). *)
Definition GetTransactionsParams : Type := Js.JsObject.

(** Modelled from the spec: [TransactionFormData], with the fields that
    [convertFormDataToUpdateData] reads; [amount] is a number (an integral
    one here) and [category_id] may be missing ([None]). *)
Record TransactionFormData : Type := {
  f_type : string;
  f_amount : Z;
  f_currency : string;
  f_category_id : option string;
  f_description : string;
  f_transaction_date : string
}.

(** Modelled from the spec: [TransactionUpdateData], with the fields that
    [convertFormDataToUpdateData] assigns; [u_category_id = None] is an
    object without a [category_id] property. *)
Record TransactionUpdateData : Type := {
  u_type : string;
  u_amount : string;
  u_currency : string;
  u_description : string;
  u_transaction_date : string;
  u_category_id : option string
}.

(** The refs of the page, and [hideBottomBar] of the layout store. *)
Record State : Type := {
  detailsDrawerVisible : bool;
  selectedTransaction : option Transaction;
  formDrawerVisible : bool;
  selectionMode : bool;
  selectedIds : list string;
  hideBottomBar : bool
}.

Definition initial : State :=
  {| detailsDrawerVisible := false; selectedTransaction := None;
     formDrawerVisible := false; selectionMode := false; selectedIds := [];
     hideBottomBar := false |}.

Definition set_detailsDrawerVisible (v : bool) (s : State) : State :=
  {| detailsDrawerVisible := v; selectedTransaction := selectedTransaction s;
     formDrawerVisible := formDrawerVisible s; selectionMode := selectionMode s;
     selectedIds := selectedIds s; hideBottomBar := hideBottomBar s |}.

Definition set_selectedTransaction (v : option Transaction) (s : State) : State :=
  {| detailsDrawerVisible := detailsDrawerVisible s; selectedTransaction := v;
     formDrawerVisible := formDrawerVisible s; selectionMode := selectionMode s;
     selectedIds := selectedIds s; hideBottomBar := hideBottomBar s |}.

Definition set_selectionMode (v : bool) (s : State) : State :=
  {| detailsDrawerVisible := detailsDrawerVisible s;
     selectedTransaction := selectedTransaction s;
     formDrawerVisible := formDrawerVisible s; selectionMode := v;
     selectedIds := selectedIds s; hideBottomBar := hideBottomBar s |}.

Definition set_selectedIds (v : list string) (s : State) : State :=
  {| detailsDrawerVisible := detailsDrawerVisible s;
     selectedTransaction := selectedTransaction s;
     formDrawerVisible := formDrawerVisible s; selectionMode := selectionMode s;
     selectedIds := v; hideBottomBar := hideBottomBar s |}.

(** [layoutStore.setHideBottomBar] *)
Definition setHideBottomBar (v : bool) (s : State) : State :=
  {| detailsDrawerVisible := detailsDrawerVisible s;
     selectedTransaction := selectedTransaction s;
     formDrawerVisible := formDrawerVisible s; selectionMode := selectionMode s;
     selectedIds := selectedIds s; hideBottomBar := v |}.

(** The actions of the transactions store that the handlers below await;
    the store itself is not among the sources. *)
Inductive Request : Type -> Type :=
| applyFilters (filters : GetTransactionsParams) : Request unit
| resetFilters : Request unit
| removeTransactions (ids : list string) : Request unit
| refreshTransactions : Request unit.

(** [t(key)] and [t(key, { count })] *)
Inductive Message : Type :=
| t (key : string)
| t_count (key : string) (count : nat).

Inductive Event : Type :=
| toast_success (title message : Message)
| toast_error (title message : Message).

Definition Prog : Type -> Type := Async State Request Event.

Definition handleApplyFilters (filters : GetTransactionsParams) : Prog unit :=
  await (applyFilters filters).

Definition handleResetFilters : Prog unit :=
  await resetFilters.

Definition handleSelect (transaction : Transaction) (selected : bool) : Prog unit :=
  if selected then
    modify (fun s => set_selectedIds (selectedIds s ++ [id transaction])%list s)
  else
    modify (fun s =>
      set_selectedIds
        (List.filter (fun i => negb (String.eqb i (id transaction))) (selectedIds s)) s).

Definition exitSelectionMode : Prog unit :=
  modify (set_selectionMode false) ;;
  modify (set_selectedIds []) ;;
  modify (setHideBottomBar false).

Definition toggleSelectionMode : Prog unit :=
  mode <- read selectionMode ;;
  if mode then exitSelectionMode
  else
    modify (set_selectionMode true) ;;
    modify (setHideBottomBar true).

Definition handleMassDelete : Prog unit :=
  ids <- read selectedIds ;;
  if Nat.eqb (List.length ids) 0 then Ret tt
  else
    let idsToDelete := ids in
    try_catch
      (await (removeTransactions idsToDelete) ;;
       exitSelectionMode ;;
       await refreshTransactions ;;
       emit (toast_success (t "common.success")
               (t_count "transactions.massDeleteSuccess" (List.length idsToDelete))))
      (fun error =>
         emit (toast_error (t "common.error") (t "transactions.deleteError"))).

Definition handleTransactionClick (transaction : Transaction) : Prog unit :=
  modify (set_selectedTransaction (Some transaction)) ;;
  modify (set_detailsDrawerVisible true).

(** [formData.category_id && formData.category_id.trim() !== ''] *)
Definition category_selected (c : option string) : bool :=
  match c with
  | None => false
  | Some v => negb (String.eqb v "") && negb (String.eqb (Js.trim v) "")
  end.

Definition convertFormDataToUpdateData (formData : TransactionFormData)
    : TransactionUpdateData :=
  let updateData :=
    {| u_type := f_type formData;
       u_amount := Js.Number_toString (f_amount formData);
       u_currency := f_currency formData;
       u_description := f_description formData;
       u_transaction_date := f_transaction_date formData;
       u_category_id := None |} in
  if category_selected (f_category_id formData) then
    {| u_type := u_type updateData;
       u_amount := u_amount updateData;
       u_currency := u_currency updateData;
       u_description := u_description updateData;
       u_transaction_date := u_transaction_date updateData;
       u_category_id := f_category_id formData |}
  else updateData.

(** The user's gestures on the page. *)
Inductive Action : Type :=
| ToggleSelectionMode
| Select (transaction : Transaction) (selected : bool)
| ExitSelectionMode
| MassDelete
| ApplyFilters (filters : GetTransactionsParams)
| ResetFilters.

Definition handler (a : Action) : Prog unit :=
  match a with
  | ToggleSelectionMode => toggleSelectionMode
  | Select transaction selected => handleSelect transaction selected
  | ExitSelectionMode => exitSelectionMode
  | MassDelete => handleMassDelete
  | ApplyFilters filters => handleApplyFilters filters
  | ResetFilters => handleResetFilters
  end.

Section Reach.

(** The transactions store seen from the page: its state [W], how it
    settles the awaited actions, and the transactions it currently shows
    (the rows of [groupedTransactions]). *)
Context {W : Type} (serve : forall R : Type, Request R -> W -> (Err + R) * W)
        (shown : W -> list Transaction).

Definition shown_ids (w : W) : list string := List.map id (shown w).

(** What the template lets through: rows emit [select] for a transaction
    that is shown, and the selection bar exists in selection mode only. *)
Definition enabled (a : Action) (s : State) (w : W) : Prop :=
  match a with
  | Select transaction _ => selectionMode s = true /\ In transaction (shown w)
  | ExitSelectionMode | MassDelete => selectionMode s = true
  | _ => True
  end.

Definition step (a : Action) (s : State) (w : W) : State * W :=
  let o := run serve (handler a) s w in (o_state o, o_world o).

Inductive reachable : State -> W -> Prop :=
| reach_initial (w : W) : reachable initial w
| reach_step (a : Action) (s : State) (w : W) :
    reachable s w -> enabled a s w ->
    reachable (fst (step a s w)) (snd (step a s w)).

(** The selection-subset property of a page state. *)
Definition selection_within (s : State) (w : W) : Prop :=
  selectionMode s = true -> incl (selectedIds s) (shown_ids w).

End Reach.

(** A transactions store to run the handlers against; the store of the
    application is not among the sources. *)
Module RefStore.

(** Modelled from the spec: the state of a transactions store over a
    remote collection (sections 4.1 and 6): the remote transactions, the
    contents shown, the recorded filter.  [failing] makes every action
    reject. *)
Record World : Type := {
  remote : list Transaction;
  contents : list Transaction;
  currentFilters : GetTransactionsParams;
  failing : bool
}.

Definition matches (f : GetTransactionsParams) (x : Transaction) : bool :=
  match Js.lookup "type" f with
  | Some (Js.JString k) => String.eqb (type x) k
  | _ => true
  end.

Definition reload (f : GetTransactionsParams) (w : World) : World :=
  {| remote := remote w; contents := List.filter (matches f) (remote w);
     currentFilters := f; failing := failing w |}.

Definition delete (ids : list string) (w : World) : World :=
  {| remote := List.filter (fun x => negb (existsb (String.eqb (id x)) ids)) (remote w);
     contents := contents w; currentFilters := currentFilters w;
     failing := failing w |}.

(** Modelled from the spec: the actions of the transactions store.
    [applyFilters] and [resetFilters] record the filter and reload,
    [refreshTransactions] reloads with the recorded filter, a reload
    replaces the contents by the remote transactions that match the filter
    (here: its [type] property, when it has one), and [removeTransactions]
    deletes the identifiers remotely. *)
Definition serve (R : Type) (rq : Request R) (w : World) : (Err + R) * World :=
  if failing w then (inl "Network Error", w)
  else
    match rq in Request R return (Err + R) * World with
    | applyFilters filters => (inr tt, reload filters w)
    | resetFilters => (inr tt, reload [] w)
    | removeTransactions ids => (inr tt, delete ids w)
    | refreshTransactions => (inr tt, reload (currentFilters w) w)
    end.

End RefStore.

End TransactionsPage.


(* ================================================================= *)
(** ** A reference remote for the limits endpoints *)

(** A remote to run the store against; [useLimitsRequests] and the server
    behind it are not among the sources. *)
Module LimitsRemote.

Import LimitsStore.

(** Modelled from the spec: the state of the remote collection of limits
    (section 6), the single source of truth.  [fail_fetch] and
    [fail_mutation] make the respective calls reject. *)
Record World : Type := {
  stored : list Limit;
  created : nat;
  fail_fetch : bool;
  fail_mutation : bool
}.

Definition matches (params : option GetLimitsParams) (l : Limit) : bool :=
  match params with
  | None => true
  | Some f =>
      match Js.lookup "category_id" f with
      | Some (Js.JString c) => String.eqb (category_id l) c
      | _ => true
      end
  end.

Definition with_stored (v : list Limit) (n : nat) (w : World) : World :=
  {| stored := v; created := n; fail_fetch := fail_fetch w;
     fail_mutation := fail_mutation w |}.

Definition create (d : LimitCreateData) (w : World) : World :=
  let l := {| id := "limit-" ++ Js.Number_toString (Z.of_nat (created w));
              category_id := LimitCreateData.category_id d;
              amount := LimitCreateData.amount d;
              period_start := LimitCreateData.period_start d;
              period_end := LimitCreateData.period_end d;
              created_at := "" |} in
  with_stored (stored w ++ [l])%list (S (created w)) w.

Definition update (i : string) (d : LimitUpdateData) (w : World) : World :=
  with_stored
    (List.map (fun l =>
       if String.eqb (id l) i then
         {| id := id l; category_id := category_id l;
            amount := LimitUpdateData.amount d;
            period_start := LimitUpdateData.period_start d;
            period_end := LimitUpdateData.period_end d;
            created_at := created_at l |}
       else l) (stored w))
    (created w) w.

Definition delete (i : string) (w : World) : World :=
  with_stored (List.filter (fun l => negb (String.eqb (id l) i)) (stored w))
    (created w) w.

(** Modelled from the spec: the endpoints [LIST(filter)],
    [CREATE(payload)], [UPDATE(id, payload)] and [DELETE(id)] of section 6.
    The remote lists the limits that match the filter (here: its
    [category_id] property, when it has one) and assigns the identifier of
    a created limit. *)
Definition serve (R : Type) (rq : Request R) (w : World) : (Err + R) * World :=
  match rq in Request R return (Err + R) * World with
  | fetchLimits params =>
      if fail_fetch w then (inl "Network Error", w)
      else (inr (List.filter (matches params) (stored w)), w)
  | addLimitRequest d =>
      if fail_mutation w then (inl "Network Error", w) else (inr tt, create d w)
  | updateLimitRequest i d =>
      if fail_mutation w then (inl "Network Error", w) else (inr tt, update i d w)
  | removeLimitRequest i =>
      if fail_mutation w then (inl "Network Error", w) else (inr tt, delete i w)
  end.

End LimitsRemote.


(* ================================================================= *)
(** ** Concrete stores, remotes and hosts used in the examples *)

Module Fixtures.

Import LimitsStore.

Definition food : Limit :=
  {| id := "L1"; category_id := "food"; amount := "100000";
     period_start := "2024-05-01"; period_end := "2024-05-31";
     created_at := "2024-05-02T10:00:00Z" |}.

Definition rent : Limit :=
  {| id := "L2"; category_id := "rent"; amount := "900000";
     period_start := "2024-05-01"; period_end := "2024-05-31";
     created_at := "2024-05-03T10:00:00Z" |}.

Definition remote_up : LimitsRemote.World :=
  {| LimitsRemote.stored := [food; rent]; LimitsRemote.created := 2;
     LimitsRemote.fail_fetch := false; LimitsRemote.fail_mutation := false |}.

(** A remote whose [LIST] endpoint rejects. *)
Definition remote_down : LimitsRemote.World :=
  {| LimitsRemote.stored := [food; rent]; LimitsRemote.created := 2;
     LimitsRemote.fail_fetch := true; LimitsRemote.fail_mutation := false |}.

Definition by_food : option GetLimitsParams := Some [("category_id", Js.JString "food")].
Definition by_rent : option GetLimitsParams := Some [("category_id", Js.JString "rent")].

(** The store after [loadLimits(by_food)] has succeeded. *)
Definition loaded_food : State :=
  {| limits := [food]; loading := false; isLoaded := true;
     currentFilter := by_food; drawerVisible := false; editingLimit := None |}.

(** The store while a load is in flight. *)
Definition loading_food : State := set_loading true loaded_food.

(** The store with the form open on [food]. *)
Definition editing_food : State :=
  set_drawerVisible true (set_editingLimit (Some food) loaded_food).

(** 15 June 2024, 07:00 UTC, seen from a host five hours east of UTC
    (noon, local time) and from a host on UTC. June has 30 days. *)
Definition mid_june : Z := (Js.days_from_civil 2024 6 15 * Js.msPerDay + 7 * 3600000)%Z.
Definition host_east : Js.Host := {| Js.now := mid_june; Js.tzOffset := 300 |}.
Definition host_utc : Js.Host := {| Js.now := mid_june; Js.tzOffset := 0 |}.

Definition form_100000 : LimitFormData := {| budget := "100000" |}.

(** One filter written with its two properties in either order. *)
Definition period_then_category : option GetLimitsParams :=
  Some [("period_start", Js.JString "2024-05-01"); ("category_id", Js.JString "food")].
Definition category_then_period : option GetLimitsParams :=
  Some [("category_id", Js.JString "food"); ("period_start", Js.JString "2024-05-01")].

(** The store after [loadLimits(period_then_category)] has succeeded. *)
Definition loaded_period_food : State :=
  {| limits := [food]; loading := false; isLoaded := true;
     currentFilter := period_then_category; drawerVisible := false;
     editingLimit := None |}.

(** A filter with a property that holds [undefined], and the same filter
    without it. *)
Definition food_any_period : option GetLimitsParams :=
  Some [("category_id", Js.JString "food"); ("period_start", Js.JUndefined)].

End Fixtures.

Module PageFixtures.

Import TransactionsPage.

Definition lunch : Transaction :=
  {| id := "t1"; type := "expense"; amount := "45000"; currency := "UZS";
     category_id := Some "food"; description := "lunch";
     transaction_date := "2024-05-10"; created_at := "2024-05-10T08:00:00Z" |}.

Definition salary : Transaction :=
  {| id := "t2"; type := "income"; amount := "9000000"; currency := "UZS";
     category_id := None; description := "salary";
     transaction_date := "2024-05-05"; created_at := "2024-05-05T08:00:00Z" |}.

(** A store that shows both transactions, unfiltered. *)
Definition store_up : RefStore.World :=
  {| RefStore.remote := [lunch; salary]; RefStore.contents := [lunch; salary];
     RefStore.currentFilters := []; RefStore.failing := false |}.

(** The same store when the remote is unreachable. *)
Definition store_down : RefStore.World :=
  {| RefStore.remote := [lunch; salary]; RefStore.contents := [lunch; salary];
     RefStore.currentFilters := []; RefStore.failing := true |}.

Definition only_income : GetTransactionsParams := [("type", Js.JString "income")].

(** Selection mode with [t1] selected. *)
Definition selecting_lunch : State :=
  {| detailsDrawerVisible := false; selectedTransaction := None;
     formDrawerVisible := false; selectionMode := true; selectedIds := ["t1"];
     hideBottomBar := true |}.

Definition form_with (c : option string) : TransactionFormData :=
  {| f_type := "expense"; f_amount := 45000; f_currency := "UZS";
     f_category_id := c; f_description := "lunch";
     f_transaction_date := "2024-05-10" |}.

End PageFixtures.

(* ================================================================= *)
(** ** The sorted view of the limits store *)

Module LimitsView.

Import LimitsStore.

(** A comparator result: [None] is [NaN].  The sort reads [NaN] as [+0]. *)
Definition SortCompare (v : option Z) : Z :=
  match v with
  | Some z => z
  | None => 0%Z
  end.

(** [x - y] on numbers that may be [NaN]. *)
Definition Number_sub (x y : option Z) : option Z :=
  match x, y with
  | Some a, Some b => Some (a - b)%Z
  | _, _ => None
  end.

Section Sort.

Context {A : Type} (comparefn : A -> A -> Z).

(** [x] goes before the first element it does not have to follow. *)
Fixpoint insert (x : A) (l : list A) : list A :=
  match l with
  | [] => [x]
  | y :: r => if (comparefn x y <=? 0)%Z then x :: y :: r else y :: insert x r
  end.

(** [[...l].sort(comparefn)]: a stable sort of a copy of [l] (the sort of
    the language is stable; for a comparator that is a consistent order
    the result does not depend on the algorithm). *)
Fixpoint Array_sort (l : list A) : list A :=
  match l with
  | [] => []
  | x :: r => insert x (Array_sort r)
  end.

End Sort.

Section View.

(** [new Date(s).getTime()]: the time value of the date that [s] denotes,
    [None] ([NaN]) when [s] is not a date. *)
Context (getTime : string -> option Z).

Definition compare_created (a b : Limit) : Z :=
  let dateA := getTime (created_at a) in
  let dateB := getTime (created_at b) in
  SortCompare (Number_sub dateB dateA).

Definition sortedLimits (s : State) : list Limit :=
  Array_sort compare_created (limits s).

(** Every limit of the list carries a creation date that parses. *)
Definition dated (l : list Limit) : Prop :=
  forall x, In x l -> getTime (created_at x) <> None.

(** The time value of a limit, [0] standing in when it has none. *)
Definition time_of (x : Limit) : Z :=
  match getTime (created_at x) with
  | Some z => z
  | None => 0%Z
  end.

End View.

End LimitsView.

(* ================================================================= *)
(** ** The calendar of a host, for the period of a limit *)

Module Calendar.

Local Open Scope Z_scope.














End Calendar.

(* ================================================================= *)
(** ** The timer of the refresh scheduler ([useAutoRefresh]) *)

Module RefreshTimer.

Definition REFRESH_INTERVAL : Z := (60 * 1000)%Z.

(** The host's repeating timers (handle and delay), the handle it hands
    out next, the console, and [refreshInterval], the variable of the
    composable ([None] is [null]). *)
Record Env : Type := {
  timers : list (nat * Z);
  next_handle : nat;
  console : list string;
  refreshInterval : option nat
}.

(** [setInterval(callback, delay)]: registers a timer under a fresh
    handle and returns the handle. *)
Definition setInterval (delay : Z) (e : Env) : nat * Env :=
  (next_handle e,
   {| timers := (next_handle e, delay) :: timers e;
      next_handle := S (next_handle e);
      console := console e;
      refreshInterval := refreshInterval e |}).

(** [clearInterval(handle)] *)
Definition clearInterval (handle : nat) (e : Env) : Env :=
  {| timers := List.filter (fun t => negb (Nat.eqb (fst t) handle)) (timers e);
     next_handle := next_handle e;
     console := console e;
     refreshInterval := refreshInterval e |}.

Definition console_log (message : string) (e : Env) : Env :=
  {| timers := timers e; next_handle := next_handle e;
     console := (console e ++ [message])%list;
     refreshInterval := refreshInterval e |}.

Definition set_refreshInterval (v : option nat) (e : Env) : Env :=
  {| timers := timers e; next_handle := next_handle e;
     console := console e; refreshInterval := v |}.

(** [if (refreshInterval)]: a handle is a number, and [0] is falsy. *)
Definition truthy (v : option nat) : bool :=
  match v with
  | Some h => negb (Nat.eqb h 0)
  | None => false
  end.

Definition startAutoRefresh (e : Env) : Env :=
  let e1 :=
    if truthy (refreshInterval e) then
      match refreshInterval e with
      | Some h => clearInterval h e
      | None => e
      end
    else e in
  let e2 := console_log "startAutoRefresh" e1 in
  let '(h, e3) := setInterval REFRESH_INTERVAL e2 in
  set_refreshInterval (Some h) e3.

Definition stopAutoRefresh (e : Env) : Env :=
  if truthy (refreshInterval e) then
    match refreshInterval e with
    | Some h => set_refreshInterval None (clearInterval h e)
    | None => e
    end
  else e.

(** The calls a consumer makes, in any order: [onMounted] starts,
    [onBeforeUnmount] stops, and both functions are also returned to the
    consumer. *)
Inductive Op : Type := Start | Stop.

Definition apply (op : Op) (e : Env) : Env :=
  match op with
  | Start => startAutoRefresh e
  | Stop => stopAutoRefresh e
  end.

Definition apply_all (ops : list Op) (e : Env) : Env :=
  List.fold_left (fun e op => apply op e) ops e.

(** The timers that the composable holds. *)
Definition own (e : Env) : list (nat * Z) :=
  match refreshInterval e with
  | Some h => [(h, REFRESH_INTERVAL)]
  | None => []
  end.

(** A host as a composable finds it: handles are positive and the ones in
    use are below the next one; the composable holds no timer yet. *)
Definition fresh (e : Env) : Prop :=
  1 <= next_handle e /\
  (forall t, In t (timers e) -> fst t < next_handle e) /\
  refreshInterval e = None.

(** What holds of the host [e] after any calls, relative to the host [e0]
    that the composable found: the handle it holds was handed out after
    [e0], and the timers are its own and those of [e0]. *)
Definition kept (e0 e : Env) : Prop :=
  next_handle e0 <= next_handle e /\
  timers e = (own e ++ timers e0)%list /\
  match refreshInterval e with
  | Some h => 1 <= h /\ next_handle e0 <= h < next_handle e
  | None => True
  end.

End RefreshTimer.

(* ================================================================= *)
(** ** The navigation guard ([subscriptionMiddleware]) *)

Module SubscriptionMiddleware.

(** [userStore.loadUser(force)]; the user store is not among the
    sources. *)
Inductive Request : Type -> Type :=
| loadUser (force : bool) : Request unit.

Inductive Event : Type :=
| console_error (message : string) (error : Err).

(** What a guard returns: [true], or a route to go to instead. *)
Inductive Guard : Type :=
| Proceed
| RedirectTo (name : string).

Definition subscriptionMiddleware : Async unit Request Event Guard :=
  returned <-
    try_catch
      (await (loadUser true) ;; Ret None)
      (fun error =>
         emit (console_error "Failed to load user in subscription middleware:" error) ;;
         Ret (Some (RedirectTo "login"))) ;;
  match returned with
  | Some route => Ret route
  | None => Ret Proceed
  end.

End SubscriptionMiddleware.

(* ================================================================= *)
(** ** The transactions page: details, edit form and life cycle *)

Module TransactionsPageMore.

Import TransactionsPage.


(** The store actions that the handlers below await ([loadCategories]
    belongs to the categories store); the stores are not among the
    sources. *)
Inductive Request : Type -> Type :=
| updateTransaction (id : string) (data : TransactionUpdateData) : Request unit
| removeTransaction (id : string) : Request unit
| refreshTransactions : Request unit
| loadCategories : Request unit
| resetFilters : Request unit.

Definition Prog : Type -> Type := Async State Request Event.

Definition handleRemoveTransaction : Prog unit :=
  selected <- read selectedTransaction ;;
  match selected with
  | None => Ret tt
  | Some transaction =>
      try_catch
        (await (removeTransaction (id transaction)) ;;
         modify (set_detailsDrawerVisible false) ;;
         modify (set_selectedTransaction None) ;;
         await refreshTransactions ;;
         emit (toast_success (t "common.success") (t "transactions.deleteSuccess")))
        (fun error =>
           emit (toast_error (t "common.error") (t "transactions.deleteError")))
  end.



(** [onMounted]; [fromChart] is [history.state?.fromChart === true]. *)
Definition onMounted (fromChart : bool) : Prog unit :=
  await loadCategories ;;
  if negb fromChart then await resetFilters else Ret tt.


End TransactionsPageMore.

(* ================================================================= *)
(** ** Further concrete remotes, stores and hosts used in the examples *)

Module MoreFixtures.

Import LimitsStore.

(** A remote whose mutations reject. *)
Definition remote_readonly : LimitsRemote.World :=
  {| LimitsRemote.stored := [Fixtures.food; Fixtures.rent];
     LimitsRemote.created := 2;
     LimitsRemote.fail_fetch := false; LimitsRemote.fail_mutation := true |}.

(** A third limit, created at the same time as [Fixtures.rent]. *)
Definition fuel : Limit :=
  {| id := "L3"; category_id := "fuel"; amount := "300000";
     period_start := "2024-05-01"; period_end := "2024-05-31";
     created_at := "2024-05-03T10:00:00Z" |}.

Definition unsorted : State :=
  {| limits := [Fixtures.food; Fixtures.rent; fuel]; loading := false;
     isLoaded := true; currentFilter := None; drawerVisible := false;
     editingLimit := None |}.

(** The time values of the two creation dates above; any other string is
    not a date. *)
Definition getTime (s : string) : option Z :=
  if String.eqb s "2024-05-02T10:00:00Z" then Some 1714644000000%Z
  else if String.eqb s "2024-05-03T10:00:00Z" then Some 1714730400000%Z
  else None.

(** A collaborator that accepts the first [n] requests it gets and
    rejects the ones after; the state is [n]. *)
Definition accepts_page (R : Type) (rq : TransactionsPage.Request R) (n : nat)
    : (Err + R) * nat :=
  match n with
  | O => (inl "Network Error", O)
  | S k =>
      (match rq in TransactionsPage.Request R return Err + R with
       | TransactionsPage.applyFilters _ => inr tt
       | TransactionsPage.resetFilters => inr tt
       | TransactionsPage.removeTransactions _ => inr tt
       | TransactionsPage.refreshTransactions => inr tt
       end, k)
  end.

Definition accepts_more (R : Type) (rq : TransactionsPageMore.Request R) (n : nat)
    : (Err + R) * nat :=
  match n with
  | O => (inl "Network Error", O)
  | S k =>
      (match rq in TransactionsPageMore.Request R return Err + R with
       | TransactionsPageMore.updateTransaction _ _ => inr tt
       | TransactionsPageMore.removeTransaction _ => inr tt
       | TransactionsPageMore.refreshTransactions => inr tt
       | TransactionsPageMore.loadCategories => inr tt
       | TransactionsPageMore.resetFilters => inr tt
       end, k)
  end.

Definition accepts_user (R : Type) (rq : SubscriptionMiddleware.Request R) (n : nat)
    : (Err + R) * nat :=
  match n with
  | O => (inl "Unauthorized", O)
  | S k =>
      (match rq in SubscriptionMiddleware.Request R return Err + R with
       | SubscriptionMiddleware.loadUser _ => inr tt
       end, k)
  end.

(** The page with the details drawer open on [lunch]. *)
Definition viewing_lunch : TransactionsPage.State :=
  TransactionsPage.set_detailsDrawerVisible true
    (TransactionsPage.set_selectedTransaction (Some PageFixtures.lunch)
       TransactionsPage.initial).


(** A host that already runs one timer of its own. *)
Definition host_timers : RefreshTimer.Env :=
  {| RefreshTimer.timers := [(3, 1000%Z)]; RefreshTimer.next_handle := 4;
     RefreshTimer.console := []; RefreshTimer.refreshInterval := None |}.


End MoreFixtures.


(* ================================================================= *)
(** ** [JSON.stringify] determines the properties it keeps *)

Section JsonFacts.

Import Js.

Lemma string_app_assoc (a b c : string) : (a ++ b) ++ c = a ++ (b ++ c).
Proof. induction a as [|x a IH]; cbn; [reflexivity | now rewrite IH]. Qed.

Lemma unescape_head_escape_char (c : ascii) (x : string) :
  unescape_head (escape_char c ++ x) = Some (c, x).
Proof. destruct c as [[|] [|] [|] [|] [|] [|] [|] [|]]; reflexivity. Qed.

Lemma escape_char_not_quote (c : ascii) (x r : string) :
  escape_char c ++ x <> String dquote r.
Proof. destruct c as [[|] [|] [|] [|] [|] [|] [|] [|]]; cbn; discriminate. Qed.

Lemma escape_inj (s1 : string) :
  forall s2 r1 r2,
    escape s1 ++ String dquote r1 = escape s2 ++ String dquote r2 ->
    s1 = s2 /\ r1 = r2.
Proof.
  induction s1 as [|c1 s1 IH]; intros [|c2 s2] r1 r2 H; cbn in H.
  - injection H as ->. now split.
  - symmetry in H. rewrite string_app_assoc in H.
    now apply escape_char_not_quote in H.
  - rewrite string_app_assoc in H. now apply escape_char_not_quote in H.
  - rewrite !string_app_assoc in H.
    pose proof (f_equal unescape_head H) as Hh.
    rewrite !unescape_head_escape_char in Hh. injection Hh as -> Hr.
    apply IH in Hr as [-> ->]. now split.
Qed.

Lemma quote_inj (s1 s2 r1 r2 : string) :
  QuoteJSONString s1 ++ r1 = QuoteJSONString s2 ++ r2 -> s1 = s2 /\ r1 = r2.
Proof.
  unfold QuoteJSONString. cbn. intros [= H].
  rewrite !string_app_assoc in H. cbn in H. now apply escape_inj in H.
Qed.

Lemma all_num_uint (d : Decimal.uint) : all_num (NilEmpty.string_of_uint d) = true.
Proof. induction d; cbn; auto. Qed.

Lemma all_num_Number (z : Z) : all_num (Number_toString z) = true.
Proof.
  unfold Number_toString.
  destruct (Z.to_int z) as [d|d]; cbn; destruct d; cbn; try reflexivity;
    apply all_num_uint.
Qed.

Lemma delimited_not_num (c : ascii) (r : string) :
  delimited (String c r) -> is_num_char c = false.
Proof. intros [r' [[= -> _]|[= -> _]]]; reflexivity. Qed.

Lemma num_then_delimiter (a : string) :
  forall b r1 r2,
    all_num a = true -> all_num b = true -> delimited r1 -> delimited r2 ->
    a ++ r1 = b ++ r2 -> a = b /\ r1 = r2.
Proof.
  induction a as [|x a IH]; intros [|y b] r1 r2 Ha Hb D1 D2 H; cbn in *.
  - now split.
  - subst r1. apply delimited_not_num in D1.
    apply andb_true_iff in Hb as [Hy _]. congruence.
  - subst r2. apply delimited_not_num in D2.
    apply andb_true_iff in Ha as [Hx _]. congruence.
  - injection H as -> H.
    apply andb_true_iff in Ha as [_ Ha]. apply andb_true_iff in Hb as [_ Hb].
    destruct (IH b r1 r2 Ha Hb D1 D2 H) as [-> ->]. now split.
Qed.

Lemma num_not_other (a r1 : string) (h : ascii) (t : string) :
  all_num a = true -> delimited r1 -> is_num_char h = false ->
  ~ delimited (String h t) -> a ++ r1 <> String h t.
Proof.
  intros Ha D1 Hh Hd H. destruct a as [|x a]; cbn in *.
  - subst r1. contradiction.
  - injection H as -> _. apply andb_true_iff in Ha as [Hx _]. congruence.
Qed.

Lemma to_int_proper (z : Z) : Z.to_int z <> Decimal.Pos Decimal.Nil /\ Z.to_int z <> Decimal.Neg Decimal.Nil.
Proof.
  destruct z as [|p|p]; cbn; split; try discriminate;
    intros [= H]; now apply DecimalPos.Unsigned.to_uint_nonnil in H.
Qed.

Lemma Number_toString_inj (z1 z2 : Z) :
  Number_toString z1 = Number_toString z2 -> z1 = z2.
Proof.
  unfold Number_toString. intros H.
  apply DecimalZ.to_int_inj.
  destruct (to_int_proper z1) as [P1 N1]. destruct (to_int_proper z2) as [P2 N2].
  pose proof (NilZero.isi _ P1 N1) as H1. pose proof (NilZero.isi _ P2 N2) as H2.
  rewrite H in H1. congruence.
Qed.

Lemma not_delimited_head (h : ascii) (t : string) :
  h <> ","%char -> h <> "}"%char -> ~ delimited (String h t).
Proof. intros H1 H2 [r [[= -> _]|[= -> _]]]; congruence. Qed.

Lemma value_inj (v1 v2 : JsPrim) (a b r1 r2 : string) :
  SerializeJSONProperty v1 = Some a -> SerializeJSONProperty v2 = Some b ->
  delimited r1 -> delimited r2 ->
  a ++ r1 = b ++ r2 -> v1 = v2 /\ r1 = r2.
Proof.
  intros S1 S2 D1 D2 H.
  destruct v1 as [| |[|]|z1|s1]; destruct v2 as [| |[|]|z2|s2]; cbn in S1, S2;
    try discriminate; injection S1 as <-; injection S2 as <-;
    try (cbn in H; discriminate H);
    try (cbn in H; injection H as ->; now split);
    try (exfalso; revert H; apply num_not_other;
         [apply all_num_Number | assumption | reflexivity
         | apply not_delimited_head; discriminate]);
    try (exfalso; symmetry in H; revert H; apply num_not_other;
         [apply all_num_Number | assumption | reflexivity
         | apply not_delimited_head; discriminate]).
  - destruct (num_then_delimiter _ _ r1 r2 (all_num_Number z1) (all_num_Number z2) D1 D2 H)
      as [Hz ->].
    apply Number_toString_inj in Hz as ->. now split.
  - apply quote_inj in H as [-> ->]. now split.
Qed.

Lemma member_inj (k1 k2 : string) (v1 v2 : JsPrim) (a b r1 r2 : string) :
  SerializeJSONProperty v1 = Some a -> SerializeJSONProperty v2 = Some b ->
  delimited r1 -> delimited r2 ->
  (QuoteJSONString k1 ++ ":" ++ a) ++ r1 = (QuoteJSONString k2 ++ ":" ++ b) ++ r2 ->
  k1 = k2 /\ v1 = v2 /\ r1 = r2.
Proof.
  intros S1 S2 D1 D2 H. rewrite !string_app_assoc in H.
  apply quote_inj in H as [-> H]. split; [reflexivity|].
  cbn in H. injection H as H. now apply (value_inj v1 v2 a b).
Qed.

Lemma defined_has_text (v : JsPrim) :
  v <> JUndefined -> exists a, SerializeJSONProperty v = Some a.
Proof. destruct v as [| |[|]|z|s]; intros H; try congruence; eexists; reflexivity. Qed.

Lemma after_first_delimited (l : JsObject) (t : string) : delimited (after_first l t).
Proof. destruct l; eexists; [right|left]; reflexivity. Qed.

Lemma join_cons (k : string) (v : JsPrim) (a : string) (l : JsObject) (t : string) :
  all_defined l -> SerializeJSONProperty v = Some a ->
  join_comma (members ((k, v) :: l)) ++ String "}" t
  = (QuoteJSONString k ++ ":" ++ a) ++ after_first l t.
Proof.
  intros Hl Ha. cbn [members]. rewrite Ha.
  destruct l as [|[k' v'] l']; [reflexivity|].
  apply Forall_inv in Hl. cbn in Hl.
  destruct (defined_has_text v' Hl) as [a' Ha'].
  cbn [members after_first]. rewrite Ha'. cbn [join_comma].
  rewrite !string_app_assoc. reflexivity.
Qed.

Lemma join_members_inj (l1 : JsObject) :
  forall l2 t1 t2,
    all_defined l1 -> all_defined l2 ->
    join_comma (members l1) ++ String "}" t1 = join_comma (members l2) ++ String "}" t2 ->
    l1 = l2 /\ t1 = t2.
Proof.
  induction l1 as [|[k1 v1] l1 IH]; intros [|[k2 v2] l2] t1 t2 D1 D2 H.
  - cbn in H. injection H as ->. now split.
  - destruct (defined_has_text v2 (Forall_inv D2)) as [b Hb].
    rewrite (join_cons k2 v2 b l2 t2 (Forall_inv_tail D2) Hb) in H. cbn in H. discriminate H.
  - destruct (defined_has_text v1 (Forall_inv D1)) as [a Ha].
    rewrite (join_cons k1 v1 a l1 t1 (Forall_inv_tail D1) Ha) in H. cbn in H. discriminate H.
  - destruct (defined_has_text v1 (Forall_inv D1)) as [a Ha].
    destruct (defined_has_text v2 (Forall_inv D2)) as [b Hb].
    rewrite (join_cons k1 v1 a l1 t1 (Forall_inv_tail D1) Ha) in H.
    rewrite (join_cons k2 v2 b l2 t2 (Forall_inv_tail D2) Hb) in H.
    apply (member_inj k1 k2 v1 v2) in H as (-> & -> & H);
      try assumption; try apply after_first_delimited.
    destruct l1 as [|x1 l1']; destruct l2 as [|x2 l2']; cbn [after_first] in H.
    + injection H as ->. now split.
    + discriminate H.
    + discriminate H.
    + injection H as H.
      destruct (IH (x2 :: l2') t1 t2 (Forall_inv_tail D1) (Forall_inv_tail D2) H)
        as [-> ->].
      now split.
Qed.

Lemma defined_fields_all_defined (o : JsObject) : all_defined (defined_fields o).
Proof.
  induction o as [|[k v] o IH]; cbn; [constructor|].
  destruct v; try assumption; constructor; try assumption; cbn; discriminate.
Qed.

Lemma members_defined_fields (o : JsObject) : members (defined_fields o) = members o.
Proof.
  induction o as [|[k v] o IH]; cbn; [reflexivity|].
  destruct v as [| |[|]|z|s]; cbn; now rewrite ?IH.
Qed.

Lemma SerializeJSONObject_inj (a b : JsObject) :
  SerializeJSONObject a = SerializeJSONObject b <-> defined_fields a = defined_fields b.
Proof.
  unfold SerializeJSONObject. split.
  - cbn. intros [= H].
    rewrite <- (members_defined_fields a), <- (members_defined_fields b) in H.
    now apply join_members_inj in H as [H _]; try apply defined_fields_all_defined.
  - intros H.
    now rewrite <- (members_defined_fields a), <- (members_defined_fields b), H.
Qed.

Lemma prim_eqb_refl (v : JsPrim) : prim_eqb v v = true.
Proof.
  destruct v as [| |[|]|z|s]; cbn; try reflexivity.
  - apply Z.eqb_refl.
  - apply String.eqb_refl.
Qed.

Lemma structurally_equal_same_fields (a b : option JsObject) :
  option_map defined_fields a = option_map defined_fields b ->
  structurally_equal a b = true.
Proof.
  destruct a as [x|]; destruct b as [y|]; cbn; try discriminate; [|reflexivity].
  intros [= ->]. apply forallb_forall. intros k _.
  destruct (lookup k (defined_fields y)) as [v|]; cbn; [apply prim_eqb_refl | reflexivity].
Qed.

End JsonFacts.

(* ================================================================= *)
(** ** The filter equality gate *)

Section GateFacts.

Import LimitsStore.

(** C2 (amended). [loadLimits] takes two filters for the same exactly when
    [JSON.stringify] keeps the same properties of both, with the same
    values and in the same order (two missing filters are the same, a
    missing filter and an object are not).  So whenever it reuses the
    contents the two filters are structurally equal, and it refetches for
    every pair that is structurally different. *)
Theorem filterChanged_iff_stringified (current params : option GetLimitsParams) :
  (filterChanged current params = false <-> stringified current = stringified params) /\
  (filterChanged current params = false ->
   Js.structurally_equal current params = true) /\
  (Js.structurally_equal current params = false ->
   filterChanged current params = true).
Proof.
  assert (Hiff : filterChanged current params = false <->
                 stringified current = stringified params).
  { unfold filterChanged, stringified, Js.JSON_stringify, Js.strict_neq, option_map.
    destruct current as [x|]; destruct params as [y|];
      try (split; discriminate); [|split; reflexivity].
    rewrite negb_false_iff, String.eqb_eq, SerializeJSONObject_inj.
    split; [now intros -> | now intros [=]]. }
  split; [exact Hiff|]. split.
  - intros H. apply structurally_equal_same_fields. now apply Hiff.
  - intros Hne. apply not_false_iff_true. intros Hc.
    apply Hiff in Hc. apply structurally_equal_same_fields in Hc. congruence.
Qed.

End GateFacts.


(* ================================================================= *)
(** ** Properties of the resumption monad *)

Section AsyncFacts.

Context {St : Type} {Req : Type -> Type} {Ev : Type} {W : Type}
        (serve : forall R : Type, Req R -> W -> (Err + R) * W).

(** Running a call in isolation is running its synchronous prefix and then
    settling what is pending. *)
Lemma run_start_settle (A : Type) (m : Async St Req Ev A) (s : St) (w : W) :
  let '(s1, t1, st) := start m s in
  let o := settle serve st s1 w in
  run serve m s w = mkOut (o_state o) (o_world o) (t1 ++ o_trace o)%list (o_result o).
Proof.
  revert s w. induction m as [a|e|k IH|s' k IH|ev k IH|R rq k IH]; intros s w; cbn.
  - reflexivity.
  - reflexivity.
  - apply IH.
  - apply IH.
  - specialize (IH s w). destruct (start k s) as [[s1 t1] st]. cbn in *.
    rewrite IH. reflexivity.
  - destruct (serve R rq w) as [r w']. cbn. destruct (run serve (k r) s w'). reflexivity.
Qed.

End AsyncFacts.

(* ================================================================= *)
(** ** The calendar date that [toISOString] prints for a local midnight *)

Section DateFacts.

Import Js.

Local Open Scope Z_scope.





End DateFacts.

(* ================================================================= *)
(** ** The limits store: loading *)

Section LoadFacts.

Import LimitsStore.

Context {W : Type} (serve : forall R : Type, Request R -> W -> (Err + R) * W).

Lemma filterChanged_same (f : option GetLimitsParams) : filterChanged f f = false.
Proof.
  unfold filterChanged. destruct (Js.JSON_stringify f) as [x|]; cbn.
  - now rewrite String.eqb_refl.
  - reflexivity.
Qed.

Lemma run_loadLimits_hit (s : State) (w : W) (p : option GetLimitsParams) (force : bool) :
  cache_hit s p force = true ->
  run serve (loadLimits p force) s w = mkOut s w [] (inr tt).
Proof.
  unfold cache_hit, loadLimits. intros H. cbn. now rewrite H.
Qed.

Lemma run_loadLimits_fetch (s : State) (w : W) (p : option GetLimitsParams) (force : bool) :
  cache_hit s p force = false -> loading s = false ->
  run serve (loadLimits p force) s w =
  match serve _ (fetchLimits p) w with
  | (inr fetched, w') =>
      mkOut (set_loading false (set_isLoaded true (set_limits fetched
               (set_currentFilter p (set_loading true s)))))
            w' [Requested (fetchLimits p)] (inr tt)
  | (inl error, w') =>
      mkOut (set_loading false (set_currentFilter p (set_loading true s)))
            w' [Requested (fetchLimits p);
                Emitted (console_error "Failed to load limits:" error)] (inr tt)
  end.
Proof.
  unfold cache_hit, loadLimits. intros H Hl. cbn. rewrite H. cbn. rewrite Hl. cbn.
  destruct (serve _ (fetchLimits p) w) as [[e|fetched] w']; reflexivity.
Qed.

Lemma run_loadLimits_busy (s : State) (w : W) (p : option GetLimitsParams) (force : bool) :
  loading s = true ->
  run serve (loadLimits p force) s w = mkOut s w [] (inr tt).
Proof.
  unfold loadLimits. intros Hl. cbn.
  destruct (negb force && isLoaded s && negb (filterChanged (currentFilter s) p)); cbn.
  - reflexivity.
  - now rewrite Hl.
Qed.

Lemma start_loadLimits_busy (s : State) (p : option GetLimitsParams) (force : bool) :
  loading s = true ->
  start (loadLimits p force) s = (s, [], Finished (inr tt)).
Proof.
  unfold loadLimits. intros Hl. cbn.
  destruct (negb force && isLoaded s && negb (filterChanged (currentFilter s) p)); cbn.
  - reflexivity.
  - now rewrite Hl.
Qed.

Lemma start_call_busy (s : State) (c : AutoRefresh.LoadCall) :
  loading s = true ->
  start (AutoRefresh.call c) s = (s, [], Finished (inr tt)).
Proof.
  intros Hl. destruct c as [p force| |]; cbn.
  - now apply start_loadLimits_busy.
  - unfold refreshLimits, loadLimits. cbn. now rewrite Hl.
  - unfold AutoRefresh.refreshAllStores_limits, catch_ignore, refreshLimits, loadLimits.
    cbn. now rewrite Hl.
Qed.

(** C1. After a call [loadLimits f force] that fetches and whose fetch
    resolves, a second call [loadLimits f] (not forced) issues no request
    and leaves the store (contents, loaded flag, recorded filter and every
    other ref) and the remote as they are; the two calls together issue
    exactly one fetch. *)
Theorem loadLimits_again_is_cache_hit
    (s : State) (w w1 : W) (f : option GetLimitsParams) (force : bool)
    (fetched : list Limit) :
  cache_hit s f force = false ->
  loading s = false ->
  serve _ (fetchLimits f) w = (inr fetched, w1) ->
  let o1 := run serve (loadLimits f force) s w in
  let o2 := run serve (loadLimits f false) (o_state o1) (o_world o1) in
  o_result o1 = inr tt /\
  limits (o_state o1) = fetched /\ isLoaded (o_state o1) = true /\
  currentFilter (o_state o1) = f /\
  o_state o2 = o_state o1 /\ o_world o2 = o_world o1 /\
  o_trace o2 = [] /\ o_result o2 = inr tt /\
  o_trace o1 = [Requested (fetchLimits f)] /\
  fetches (o_trace o1 ++ o_trace o2)%list = 1.
Proof.
  intros Hmiss Hidle Hfetch o1 o2. subst o2 o1.
  rewrite (run_loadLimits_fetch s w f force Hmiss Hidle), Hfetch.
  cbn [o_state o_world o_trace o_result].
  rewrite run_loadLimits_hit.
  - cbn. repeat split; reflexivity.
  - unfold cache_hit. cbn. now rewrite filterChanged_same.
Qed.

(** C3 (amended). [loadLimits] never throws to its caller, whoever calls
    it: when its fetch is rejected the error is logged on the console and
    the call completes normally. *)
Theorem loadLimits_never_throws
    (s : State) (w : W) (p : option GetLimitsParams) (force : bool) :
  let o := run serve (loadLimits p force) s w in
  o_result o = inr tt /\
  forall (error : Err) (w' : W),
    cache_hit s p force = false -> loading s = false ->
    serve _ (fetchLimits p) w = (inl error, w') ->
    o_trace o = [Requested (fetchLimits p);
                 Emitted (console_error "Failed to load limits:" error)].
Proof.
  cbn zeta. split.
  - destruct (cache_hit s p force) eqn:Hhit.
    + now rewrite run_loadLimits_hit.
    + destruct (loading s) eqn:Hl.
      * now rewrite run_loadLimits_busy.
      * rewrite (run_loadLimits_fetch s w p force Hhit Hl).
        destruct (serve _ (fetchLimits p) w) as [[e|fetched] w']; reflexivity.
  - intros error w' Hhit Hl Hfetch.
    now rewrite (run_loadLimits_fetch s w p force Hhit Hl), Hfetch.
Qed.

(** C4 (amended). When the fetch of [loadLimits f] is rejected, the
    contents, the loaded flag and the refs of the form are the ones from
    before the call, the recorded filter is the requested filter [f] (it is
    assigned before the fetch is issued and not restored), and the busy
    flag is cleared; the busy flag is cleared on the success exit as well. *)
Theorem loadLimits_failure_frame
    (s : State) (w : W) (f : option GetLimitsParams) (force : bool) :
  cache_hit s f force = false ->
  loading s = false ->
  let o := run serve (loadLimits f force) s w in
  loading (o_state o) = false /\
  forall (error : Err) (w' : W),
    serve _ (fetchLimits f) w = (inl error, w') ->
    limits (o_state o) = limits s /\
    isLoaded (o_state o) = isLoaded s /\
    drawerVisible (o_state o) = drawerVisible s /\
    editingLimit (o_state o) = editingLimit s /\
    currentFilter (o_state o) = f.
Proof.
  intros Hmiss Hidle o. subst o.
  rewrite (run_loadLimits_fetch s w f force Hmiss Hidle). split.
  - destruct (serve _ (fetchLimits f) w) as [[e|fetched] w']; reflexivity.
  - intros error w' Hfetch. rewrite Hfetch. cbn. repeat split; reflexivity.
Qed.

(** C5. While the busy flag is set, a call of [loadLimits] on the store,
    by a user of the store, by [refreshLimits] or by a tick of the refresh
    scheduler, forced or not, completes at once without a request and
    without touching the store.  Hence, when a first load has issued its
    fetch and a second call is made before that fetch settles, the pair
    issues exactly one fetch and ends as the first call alone would. *)
Theorem loadLimits_busy_guard
    (s : State) (w : W) (p : option GetLimitsParams) (force : bool)
    (c : AutoRefresh.LoadCall) :
  (loading s = true ->
   start (AutoRefresh.call c) s = (s, [], Finished (inr tt))) /\
  (loading s = false -> cache_hit s p force = false ->
   let b := concurrently serve (loadLimits p force) (AutoRefresh.call c) s w in
   let o := run serve (loadLimits p force) s w in
   fetches (b_trace b) = 1 /\
   b_trace b = o_trace o /\ b_state b = o_state o /\ b_world b = o_world o /\
   b_first b = o_result o /\ b_second b = inr tt).
Proof.
  split.
  - apply start_call_busy.
  - intros Hidle Hmiss b o. subst b o.
    rewrite (run_loadLimits_fetch s w p force Hmiss Hidle).
    unfold concurrently, loadLimits. cbn.
    unfold cache_hit in Hmiss. rewrite Hmiss. cbn. rewrite Hidle. cbn.
    rewrite start_call_busy by reflexivity. cbn.
    destruct (serve _ (fetchLimits p) w) as [[e|fetched] w']; cbn;
      repeat split; reflexivity.
Qed.

Lemma run_perform (s : State) (w : W) (m : Mutation) :
  run serve (perform m) s w =
  match serve _ (request_of m) w with
  | (inl error, w1) =>
      mkOut (set_loading false (set_loading true s)) w1
        [Requested (request_of m);
         Emitted (console_error (failure_message m) error)]
        (inl error)
  | (inr _, w1) =>
      match serve _ (fetchLimits (currentFilter s)) w1 with
      | (inl error, w2) =>
          mkOut (set_loading false (set_loading true s)) w2
            [Requested (request_of m);
             Requested (fetchLimits (currentFilter s));
             Emitted (console_error (failure_message m) error)]
            (inl error)
      | (inr fetched, w2) =>
          mkOut (set_loading false (set_limits fetched (set_loading true s))) w2
            [Requested (request_of m);
             Requested (fetchLimits (currentFilter s))]
            (inr tt)
      end
  end.
Proof.
  destruct m as [d|i d|i]; cbn;
    match goal with
    | |- context [serve unit ?rq w] =>
        destruct (serve unit rq w) as [[e|[]] w1]; cbn; [reflexivity|]
    end;
    destruct (serve _ (fetchLimits (currentFilter s)) w1) as [[e|fetched] w2];
    reflexivity.
Qed.


End LoadFacts.

(* ================================================================= *)
(** ** The limits store: examples *)

Section LoadExamples.

Import LimitsStore Fixtures.

Lemma loadLimits_again_is_cache_hit_example :
  cache_hit initial by_food false = false /\
  loading initial = false /\
  LimitsRemote.serve _ (fetchLimits by_food) remote_up = (inr [food], remote_up) /\
  let o1 := run LimitsRemote.serve (loadLimits by_food false) initial remote_up in
  let o2 := run LimitsRemote.serve (loadLimits by_food false) (o_state o1) (o_world o1) in
  o_result o1 = inr tt /\
  limits (o_state o1) = [food] /\ isLoaded (o_state o1) = true /\
  currentFilter (o_state o1) = by_food /\
  o_state o2 = o_state o1 /\ o_world o2 = o_world o1 /\
  o_trace o2 = [] /\ o_result o2 = inr tt /\
  o_trace o1 = [Requested (fetchLimits by_food)] /\
  fetches (o_trace o1 ++ o_trace o2)%list = 1.
Proof.
  split; [reflexivity|]. split; [reflexivity|]. split; [reflexivity|].
  apply (loadLimits_again_is_cache_hit LimitsRemote.serve
           initial remote_up remote_up by_food false [food]); reflexivity.
Defined.

(** C3, as stated, fails: a load whose fetch is rejected with
    ["Network Error"] returns normally to its caller. *)
Lemma loadLimits_rejected_fetch_returns :
  LimitsRemote.serve _ (fetchLimits by_food) remote_down
    = (inl "Network Error", remote_down) /\
  o_result (run LimitsRemote.serve (loadLimits by_food false) initial remote_down)
    = inr tt /\
  o_result (run LimitsRemote.serve (loadLimits by_food false) initial remote_down)
    <> inl "Network Error".
Proof.
  split; [reflexivity|]. split; [reflexivity|]. discriminate.
Qed.

(** C4, as stated, fails: the store holds the limits of [by_food]; a load
    of [by_rent] whose fetch is rejected leaves [by_rent] as the recorded
    filter, over the contents of [by_food]. *)
Lemma loadLimits_rejected_fetch_moves_filter :
  let o := run LimitsRemote.serve (loadLimits by_rent false) loaded_food remote_down in
  LimitsRemote.serve _ (fetchLimits by_rent) remote_down
    = (inl "Network Error", remote_down) /\
  limits (o_state o) = limits loaded_food /\
  currentFilter (o_state o) = by_rent /\
  currentFilter (o_state o) <> currentFilter loaded_food.
Proof.
  cbn zeta. split; [reflexivity|]. split; [reflexivity|]. split; [reflexivity|].
  discriminate.
Qed.

Lemma loadLimits_failure_frame_example :
  let o := run LimitsRemote.serve (loadLimits by_rent false) loaded_food remote_down in
  cache_hit loaded_food by_rent false = false /\
  loading loaded_food = false /\
  LimitsRemote.serve _ (fetchLimits by_rent) remote_down
    = (inl "Network Error", remote_down) /\
  loading (o_state o) = false /\
  limits (o_state o) = [food] /\
  isLoaded (o_state o) = true /\
  currentFilter (o_state o) = by_rent.
Proof.
  cbn zeta. split; [reflexivity|]. split; [reflexivity|]. split; [reflexivity|].
  pose proof (loadLimits_failure_frame LimitsRemote.serve
                loaded_food remote_down by_rent false eq_refl eq_refl)
    as [Hbusy Hframe].
  specialize (Hframe "Network Error" remote_down eq_refl).
  destruct Hframe as (Hl & Hi & _ & _ & Hf).
  split; [exact Hbusy|]. split; [exact Hl|]. split; [exact Hi | exact Hf].
Defined.

Lemma loadLimits_never_throws_example :
  let o := run LimitsRemote.serve (loadLimits by_rent false) loaded_food remote_down in
  cache_hit loaded_food by_rent false = false /\
  loading loaded_food = false /\
  LimitsRemote.serve _ (fetchLimits by_rent) remote_down
    = (inl "Network Error", remote_down) /\
  o_result o = inr tt /\
  o_trace o = [Requested (fetchLimits by_rent);
               Emitted (console_error "Failed to load limits:" "Network Error")].
Proof.
  cbn zeta. split; [reflexivity|]. split; [reflexivity|]. split; [reflexivity|].
  pose proof (loadLimits_never_throws LimitsRemote.serve
                loaded_food remote_down by_rent false) as [Hres Htrace].
  split; [exact Hres|].
  apply (Htrace "Network Error" remote_down); reflexivity.
Defined.

Lemma loadLimits_busy_guard_example :
  loading loading_food = true /\
  start (AutoRefresh.call AutoRefresh.SchedulerTick) loading_food
    = (loading_food, [], Finished (inr tt)) /\
  loading initial = false /\ cache_hit initial by_food false = false /\
  fetches (b_trace (concurrently LimitsRemote.serve (loadLimits by_food false)
                      (AutoRefresh.call AutoRefresh.SchedulerTick)
                      initial remote_up)) = 1.
Proof.
  split; [reflexivity|]. split.
  - apply (proj1 (loadLimits_busy_guard LimitsRemote.serve loading_food remote_up
                    by_food false AutoRefresh.SchedulerTick)). reflexivity.
  - split; [reflexivity|]. split; [reflexivity|].
    apply (proj2 (loadLimits_busy_guard LimitsRemote.serve initial remote_up
                    by_food false AutoRefresh.SchedulerTick)); reflexivity.
Defined.


(** C8 fails on a host east of UTC.  In June 2024 (30 days), with the form
    open on limit [L1] and amount ["100000"], the payload of the update
    carries 31 May and 29 June: [toISOString] prints the UTC date of local
    midnight, which is the day before.  The same holds for a create.  On a
    host on UTC the same submission carries 1 June and 30 June. *)
Theorem handleSubmit_period_east_of_utc :
  o_trace (run LimitsRemote.serve (handleSubmit host_east form_100000 "food")
             editing_food remote_up)
  = [Requested (updateLimitRequest "L1"
       {| LimitUpdateData.amount := "100000";
          LimitUpdateData.period_start := "2024-05-31";
          LimitUpdateData.period_end := "2024-06-29" |});
     Requested (fetchLimits by_food)] /\
  o_trace (run LimitsRemote.serve (handleSubmit host_east form_100000 "food")
             loaded_food remote_up)
  = [Requested (addLimitRequest
       {| LimitCreateData.category_id := "food";
          LimitCreateData.amount := "100000";
          LimitCreateData.period_start := "2024-05-31";
          LimitCreateData.period_end := "2024-06-29" |});
     Requested (fetchLimits by_food)] /\
  o_trace (run LimitsRemote.serve (handleSubmit host_utc form_100000 "food")
             editing_food remote_up)
  = [Requested (updateLimitRequest "L1"
       {| LimitUpdateData.amount := "100000";
          LimitUpdateData.period_start := "2024-06-01";
          LimitUpdateData.period_end := "2024-06-30" |});
     Requested (fetchLimits by_food)].
Proof.
  repeat split; vm_compute; reflexivity.
Qed.

End LoadExamples.

(* ================================================================= *)
(** ** The transactions page *)

Section PageFacts.

Import TransactionsPage.

Context {W : Type} (serve : forall R : Type, Request R -> W -> (Err + R) * W)
        (shown : W -> list Transaction).

Lemma run_exitSelectionMode (s : State) (w : W) :
  run serve exitSelectionMode s w =
  mkOut (setHideBottomBar false (set_selectedIds [] (set_selectionMode false s)))
        w [] (inr tt).
Proof. reflexivity. Qed.

Lemma run_handleApplyFilters (s : State) (w : W) (filters : GetTransactionsParams) :
  o_state (run serve (handleApplyFilters filters) s w) = s.
Proof.
  unfold handleApplyFilters, await. cbn.
  destruct (serve _ (applyFilters filters) w) as [[e|[]] w']; reflexivity.
Qed.

Lemma run_handleResetFilters (s : State) (w : W) :
  o_state (run serve handleResetFilters s w) = s.
Proof.
  unfold handleResetFilters, await. cbn.
  destruct (serve _ resetFilters w) as [[e|[]] w']; reflexivity.
Qed.

Lemma run_handleMassDelete_nonempty (s : State) (w : W) :
  selectedIds s <> [] ->
  run serve handleMassDelete s w =
  match serve _ (removeTransactions (selectedIds s)) w with
  | (inl error, w1) =>
      mkOut s w1
        [Requested (removeTransactions (selectedIds s));
         Emitted (toast_error (t "common.error") (t "transactions.deleteError"))]
        (inr tt)
  | (inr _, w1) =>
      let s' := setHideBottomBar false (set_selectedIds [] (set_selectionMode false s)) in
      match serve _ refreshTransactions w1 with
      | (inl error, w2) =>
          mkOut s' w2
            [Requested (removeTransactions (selectedIds s));
             Requested refreshTransactions;
             Emitted (toast_error (t "common.error") (t "transactions.deleteError"))]
            (inr tt)
      | (inr _, w2) =>
          mkOut s' w2
            [Requested (removeTransactions (selectedIds s));
             Requested refreshTransactions;
             Emitted (toast_success (t "common.success")
                        (t_count "transactions.massDeleteSuccess"
                           (List.length (selectedIds s))))]
            (inr tt)
      end
  end.
Proof.
  intros Hne. unfold handleMassDelete. cbn.
  destruct (selectedIds s) as [|i ids] eqn:Hids; [congruence|]. cbn.
  destruct (serve _ (removeTransactions (i :: ids)) w) as [[e|[]] w1]; cbn.
  - reflexivity.
  - destruct (serve _ refreshTransactions w1) as [[e|[]] w2]; reflexivity.
Qed.

(** C6 (amended). With an empty selection the bulk delete returns at once:
    nothing is sent and the page is left as it is.  Over a non-empty
    selection it sends one [removeTransactions] request for the selected
    identifiers.  When that request is accepted, the page exits selection
    mode with an empty selection set and then asks the store to refresh,
    before the handler completes.  When it is rejected, selection mode and
    the selection set stay as they are, no refresh is asked for, and an
    error toast is shown.  In no case does the handler throw. *)
Theorem handleMassDelete_outcomes (s : State) (w : W) :
  let ids := selectedIds s in
  let o := run serve handleMassDelete s w in
  o_result o = inr tt /\
  (ids = [] -> o_state o = s /\ o_world o = w /\ o_trace o = []) /\
  (ids <> [] ->
   (forall w1, serve _ (removeTransactions ids) w = (inr tt, w1) ->
      selectionMode (o_state o) = false /\
      selectedIds (o_state o) = [] /\
      hideBottomBar (o_state o) = false /\
      exists last,
        o_trace o = [Requested (removeTransactions ids);
                     Requested refreshTransactions; last]) /\
   (forall error w1, serve _ (removeTransactions ids) w = (inl error, w1) ->
      o_state o = s /\
      o_trace o = [Requested (removeTransactions ids);
                   Emitted (toast_error (t "common.error")
                              (t "transactions.deleteError"))])).
Proof.
  intros ids o. subst ids o.
  destruct (selectedIds s) as [|i0 ids0] eqn:Hids.
  - unfold handleMassDelete. cbn. rewrite Hids. cbn.
    split; [reflexivity|]. split; [intros _; repeat split; reflexivity|].
    intros H. now contradiction H.
  - assert (Hne : selectedIds s <> []) by (rewrite Hids; discriminate).
    rewrite (run_handleMassDelete_nonempty s w Hne), Hids.
    destruct (serve _ (removeTransactions (i0 :: ids0)) w) as [[e|[]] w1].
    + split; [reflexivity|]. split; [discriminate|]. intros _.
      split; [intros ? [=]|].
      intros error w1' [= <- <-]. split; reflexivity.
    + cbn zeta.
      destruct (serve _ refreshTransactions w1) as [[e|[]] w2]; cbn;
        (split; [reflexivity|]); (split; [discriminate|]); intros _;
        (split; [|intros ? ? [=]]); intros w1' _;
        repeat split; eexists; reflexivity.
Qed.

(** C7 (amended). Every gesture the page lets through keeps the selection
    set within the identifiers the store shows, as long as the store does
    not stop showing an identifier it showed before the gesture.  Applying
    a filter does not touch the selection: selection mode and the
    selection set are the same after it as before. *)
Theorem selection_kept_while_shown (s : State) (w : W) (a : Action) :
  enabled shown a s w ->
  incl (selectedIds s) (shown_ids shown w) ->
  let s' := fst (step serve a s w) in
  let w' := snd (step serve a s w) in
  (incl (shown_ids shown w) (shown_ids shown w') ->
   incl (selectedIds s') (shown_ids shown w') /\ selection_within shown s' w') /\
  (forall filters, a = ApplyFilters filters ->
     selectionMode s' = selectionMode s /\ selectedIds s' = selectedIds s).
Proof.
  intros Hen Hin s' w'.
  assert (Hsel : incl (shown_ids shown w) (shown_ids shown w') ->
                 incl (selectedIds s') (shown_ids shown w')).
  { subst s' w'. unfold step. cbn [fst snd].
    destruct a as [|x b| | |filters|]; cbn [handler] in *.
    - unfold toggleSelectionMode. cbn.
      destruct (selectionMode s); cbn; intros Hkeep.
      + intros i [].
      + intros i Hi. apply Hkeep, Hin, Hi.
    - destruct Hen as [_ Hx]. destruct b; cbn; intros Hkeep.
      + intros i Hi. apply Hkeep. apply in_app_or in Hi as [Hi|[<-|[]]].
        * now apply Hin.
        * unfold shown_ids. now apply in_map.
      + intros i Hi. apply filter_In in Hi as [Hi _]. apply Hkeep, Hin, Hi.
    - cbn. intros _ i [].
    - destruct (selectedIds s) as [|i0 ids] eqn:Hids.
      + unfold handleMassDelete. cbn. rewrite Hids. cbn. intros _. rewrite Hids. intros i [].
      + assert (Hne : selectedIds s <> []) by (rewrite Hids; discriminate).
        rewrite (run_handleMassDelete_nonempty s w Hne).
        destruct (serve _ (removeTransactions (selectedIds s)) w) as [[e|[]] w1].
        * cbn. intros Hkeep i Hi. apply Hkeep, Hin. now rewrite <- Hids.
        * cbn zeta.
          destruct (serve _ refreshTransactions w1) as [[e|[]] w2]; cbn; intros _ i [].
    - rewrite run_handleApplyFilters. intros Hkeep i Hi. apply Hkeep, Hin, Hi.
    - rewrite run_handleResetFilters. intros Hkeep i Hi. apply Hkeep, Hin, Hi. }
  split.
  - intros Hkeep. split; [now apply Hsel|]. intros _. now apply Hsel.
  - intros filters ->. subst s'. unfold step. cbn [fst handler].
    now rewrite run_handleApplyFilters.
Qed.

Lemma category_selected_spec (c : option string) :
  category_selected c = true <-> exists v, c = Some v /\ Js.trim v <> "".
Proof.
  destruct c as [v|]; cbn.
  - split.
    + intros H. apply andb_true_iff in H as [_ H].
      exists v. split; [reflexivity|].
      apply negb_true_iff in H. now apply String.eqb_neq.
    + intros (v' & [= <-] & H).
      apply andb_true_iff. split; apply negb_true_iff; apply String.eqb_neq.
      * intros ->. now apply H.
      * exact H.
  - split; [discriminate | intros (v & [=] & _)].
Qed.

(** C10. The update payload carries [category_id] exactly when the form's
    [category_id] is there and not empty once trimmed, and then it is the
    form's value as entered; otherwise the payload has no [category_id]. *)
Theorem update_payload_category_id (formData : TransactionFormData) :
  let updateData := convertFormDataToUpdateData formData in
  (u_category_id updateData <> None <->
   exists v, f_category_id formData = Some v /\ Js.trim v <> "") /\
  (forall v, f_category_id formData = Some v -> Js.trim v <> "" ->
     u_category_id updateData = Some v) /\
  (f_category_id formData = None -> u_category_id updateData = None) /\
  (forall v, f_category_id formData = Some v -> Js.trim v = "" ->
     u_category_id updateData = None).
Proof.
  cbn zeta. unfold convertFormDataToUpdateData.
  pose proof (category_selected_spec (f_category_id formData)) as Hspec.
  destruct (category_selected (f_category_id formData)); cbn.
  - destruct (proj1 Hspec eq_refl) as (v & Hv & Ht). rewrite Hv.
    split; [split; [intros _; now exists v | discriminate]|].
    split; [intros v' [= <-] _; reflexivity|].
    split; [discriminate|].
    intros v' [= <-] Ht'. now contradiction Ht.
  - assert (Hno : ~ exists v, f_category_id formData = Some v /\ Js.trim v <> "").
    { intros H. apply Hspec in H. discriminate. }
    split; [split; [intros H; now contradiction H | intros H; now contradiction Hno]|].
    split; [intros v Hv Ht; contradiction Hno; now exists v|].
    split; reflexivity.
Qed.

End PageFacts.

(* ================================================================= *)
(** ** The filter equality gate and the transactions page: examples *)

Section GateExamples.

Import LimitsStore Fixtures.

(** C2, as stated, fails: two filters with the same fields in a different
    order are structurally equal, yet the gate takes them for different
    and [loadLimits] fetches again. *)
Lemma reordered_filter_is_refetched :
  Js.structurally_equal period_then_category category_then_period = true /\
  filterChanged period_then_category category_then_period = true /\
  o_trace (run LimitsRemote.serve (loadLimits category_then_period false)
             loaded_period_food remote_up)
  = [Requested (fetchLimits category_then_period)].
Proof. repeat split; vm_compute; reflexivity. Qed.

Lemma filterChanged_iff_stringified_example :
  stringified food_any_period = stringified by_food /\
  filterChanged food_any_period by_food = false /\
  Js.structurally_equal food_any_period by_food = true /\
  Js.structurally_equal by_food by_rent = false /\
  filterChanged by_food by_rent = true.
Proof.
  pose proof (filterChanged_iff_stringified food_any_period by_food)
    as [Hiff [Hreuse _]].
  pose proof (filterChanged_iff_stringified by_food by_rent) as [_ [_ Hrefetch]].
  assert (Hsame : stringified food_any_period = stringified by_food) by reflexivity.
  split; [exact Hsame|].
  split; [exact (proj2 Hiff Hsame)|].
  split; [exact (Hreuse (proj2 Hiff Hsame))|].
  split; [reflexivity|].
  apply Hrefetch. reflexivity.
Defined.

End GateExamples.

Section PageExamples.

Import TransactionsPage PageFixtures.

(** C6, as stated, fails: when [removeTransactions] is rejected the page
    stays in selection mode with its selection, and no refresh is asked
    for. *)
Lemma handleMassDelete_rejected_keeps_selection :
  let o := run RefStore.serve handleMassDelete selecting_lunch store_down in
  RefStore.serve _ (removeTransactions ["t1"]) store_down
    = (inl "Network Error", store_down) /\
  selectionMode (o_state o) = true /\
  selectedIds (o_state o) = ["t1"] /\
  o_trace o = [Requested (removeTransactions ["t1"]);
               Emitted (toast_error (t "common.error") (t "transactions.deleteError"))] /\
  ~ In (Requested refreshTransactions) (o_trace o).
Proof.
  cbn zeta. repeat split; try reflexivity.
  cbv. intros [H|[H|[]]]; discriminate H.
Qed.

Lemma handleMassDelete_outcomes_example :
  selectedIds selecting_lunch <> [] /\
  RefStore.serve _ (removeTransactions ["t1"]) store_up
    = (inr tt, RefStore.delete ["t1"] store_up) /\
  RefStore.serve _ (removeTransactions ["t1"]) store_down
    = (inl "Network Error", store_down) /\
  selectionMode (o_state (run RefStore.serve handleMassDelete selecting_lunch store_up))
    = false /\
  selectedIds (o_state (run RefStore.serve handleMassDelete selecting_lunch store_up))
    = [] /\
  o_state (run RefStore.serve handleMassDelete selecting_lunch store_down)
    = selecting_lunch /\
  o_trace (run RefStore.serve handleMassDelete initial store_up) = [].
Proof.
  assert (Hne : selectedIds selecting_lunch <> []) by discriminate.
  pose proof (handleMassDelete_outcomes RefStore.serve selecting_lunch store_up)
    as [_ [_ Hup]].
  pose proof (handleMassDelete_outcomes RefStore.serve selecting_lunch store_down)
    as [_ [_ Hdown]].
  pose proof (handleMassDelete_outcomes RefStore.serve initial store_up)
    as [_ [Hempty _]].
  destruct (Hup Hne) as [Hok _]. destruct (Hdown Hne) as [_ Hfail].
  specialize (Hok (RefStore.delete ["t1"] store_up) eq_refl).
  specialize (Hfail "Network Error" store_down eq_refl).
  split; [exact Hne|]. split; [reflexivity|]. split; [reflexivity|].
  split; [exact (proj1 Hok)|]. split; [exact (proj1 (proj2 Hok))|].
  split; [exact (proj1 Hfail)|].
  exact (proj2 (proj2 (Hempty eq_refl))).
Defined.

(** C7, as stated, fails: enter selection mode, select [t1], apply the
    filter [type = income].  The page is still in selection mode, [t1] is
    still selected, and the store no longer shows it. *)
Lemma stale_selection_after_filter :
  let w := RefStore.reload only_income store_up in
  reachable RefStore.serve RefStore.contents selecting_lunch w /\
  selectionMode selecting_lunch = true /\
  selectedIds selecting_lunch = ["t1"] /\
  shown_ids RefStore.contents w = ["t2"] /\
  ~ selection_within RefStore.contents selecting_lunch w.
Proof.
  cbn zeta. split; [|split; [reflexivity|split; [reflexivity|split; [reflexivity|]]]].
  - pose proof (reach_initial RefStore.serve RefStore.contents store_up) as H0.
    pose proof (reach_step RefStore.serve RefStore.contents
                  ToggleSelectionMode _ _ H0 I) as H1.
    assert (E2 : enabled RefStore.contents (Select lunch true)
                   (fst (step RefStore.serve ToggleSelectionMode initial store_up))
                   (snd (step RefStore.serve ToggleSelectionMode initial store_up))).
    { split; [reflexivity | left; reflexivity]. }
    pose proof (reach_step RefStore.serve RefStore.contents _ _ _ H1 E2) as H2.
    exact (reach_step RefStore.serve RefStore.contents
             (ApplyFilters only_income) _ _ H2 I).
  - intros H. specialize (H eq_refl "t1" (or_introl eq_refl)).
    cbv in H. destruct H as [H|[]]. discriminate H.
Qed.

Lemma selection_kept_while_shown_example :
  enabled RefStore.contents (ApplyFilters only_income) selecting_lunch store_up /\
  incl (selectedIds selecting_lunch) (shown_ids RefStore.contents store_up) /\
  selectionMode (fst (step RefStore.serve (ApplyFilters only_income)
                        selecting_lunch store_up)) = true /\
  selectedIds (fst (step RefStore.serve (ApplyFilters only_income)
                      selecting_lunch store_up)) = ["t1"].
Proof.
  assert (Hin : incl (selectedIds selecting_lunch) (shown_ids RefStore.contents store_up)).
  { intros i [<-|[]]. left. reflexivity. }
  pose proof (selection_kept_while_shown RefStore.serve RefStore.contents
                selecting_lunch store_up (ApplyFilters only_income) I Hin)
    as [_ Hframe].
  specialize (Hframe only_income eq_refl).
  split; [exact I|]. split; [exact Hin|].
  split; [exact (proj1 Hframe) | exact (proj2 Hframe)].
Defined.

Lemma update_payload_category_id_example :
  u_category_id (convertFormDataToUpdateData (form_with (Some "food"))) = Some "food" /\
  u_category_id (convertFormDataToUpdateData (form_with (Some "   "))) = None /\
  u_category_id (convertFormDataToUpdateData (form_with None)) = None.
Proof.
  pose proof (update_payload_category_id (form_with (Some "food"))) as [_ [H1 _]].
  pose proof (update_payload_category_id (form_with (Some "   "))) as [_ [_ [_ H2]]].
  pose proof (update_payload_category_id (form_with None)) as [_ [_ [H3 _]]].
  split; [apply (H1 "food"); [reflexivity | discriminate]|].
  split; [apply (H2 "   "); reflexivity|].
  apply H3. reflexivity.
Defined.

End PageExamples.

(* ================================================================= *)
(** ** Sequencing calls *)

Section BindFacts.

Context {St : Type} {Req : Type -> Type} {Ev : Type} {W : Type}
        (serve : forall R : Type, Req R -> W -> (Err + R) * W).

(** [m ;; f] run in isolation: [m] runs; when it throws, so does the
    whole; otherwise [f] runs from where [m] ended. *)
Lemma run_bind (A B : Type) (m : Async St Req Ev A) (f : A -> Async St Req Ev B)
    (s : St) (w : W) :
  run serve (bind m f) s w =
  let o := run serve m s w in
  match o_result o with
  | inl e => mkOut (o_state o) (o_world o) (o_trace o) (inl e)
  | inr a =>
      let o' := run serve (f a) (o_state o) (o_world o) in
      mkOut (o_state o') (o_world o') (o_trace o ++ o_trace o')%list (o_result o')
  end.
Proof.
  revert s w. induction m as [a|e|k IH|s' k IH|ev k IH|R rq k IH]; intros s w; cbn.
  - now destruct (run serve (f a) s w).
  - reflexivity.
  - apply IH.
  - apply IH.
  - rewrite IH. cbn. destruct (o_result (run serve k s w)); reflexivity.
  - destruct (serve R rq w) as [r w']. rewrite IH. cbn.
    destruct (o_result (run serve (k r) s w')); reflexivity.
Qed.

End BindFacts.

(* ================================================================= *)
(** ** The limits store: how loads, refreshes and mutations compose *)

Section StoreFacts.

Import LimitsStore.

Context {W : Type} (serve : forall R : Type, Request R -> W -> (Err + R) * W).

Lemma set_loading_restore (s : State) :
  loading s = false ->
  set_loading false (set_currentFilter (currentFilter s) (set_loading true s)) = s.
Proof. destruct s. cbn. now intros ->. Qed.

Lemma run_refreshLimits (s : State) (w : W) :
  run serve refreshLimits s w = run serve (loadLimits (currentFilter s) true) s w.
Proof. reflexivity. Qed.

(** X1. Loading a filter that serializes differently from the recorded
    one always goes to the remote: after a load of [f1] that fetched, a
    non-forced load of [f2] fetches again, and when it resolves the
    contents are its response alone and the recorded filter is [f2]. *)
Theorem loadLimits_other_filter_replaces
    (s : State) (w w1 w2 : W) (f1 f2 : option GetLimitsParams) (force : bool)
    (first second : list Limit) :
  cache_hit s f1 force = false ->
  loading s = false ->
  serve _ (fetchLimits f1) w = (inr first, w1) ->
  filterChanged f1 f2 = true ->
  serve _ (fetchLimits f2) w1 = (inr second, w2) ->
  let o1 := run serve (loadLimits f1 force) s w in
  let o2 := run serve (loadLimits f2 false) (o_state o1) (o_world o1) in
  (o_trace o1 ++ o_trace o2)%list
    = [Requested (fetchLimits f1); Requested (fetchLimits f2)] /\
  limits (o_state o2) = second /\
  currentFilter (o_state o2) = f2 /\
  isLoaded (o_state o2) = true /\
  loading (o_state o2) = false.
Proof.
  intros Hmiss Hidle Hfirst Hchanged Hsecond o1 o2. subst o2 o1.
  rewrite (run_loadLimits_fetch serve s w f1 force Hmiss Hidle), Hfirst.
  cbn [o_state o_world o_trace].
  rewrite run_loadLimits_fetch.
  - cbn [currentFilter set_loading set_isLoaded set_limits set_currentFilter].
    rewrite Hsecond. repeat split; reflexivity.
  - unfold cache_hit. cbn. now rewrite Hchanged.
  - reflexivity.
Qed.

(** X2. [refreshLimits] on an idle store always fetches with the recorded
    filter, loaded or not.  When the fetch is rejected the store is
    exactly as before the call; when it resolves, the contents are the
    response, the store is loaded, and the recorded filter is kept. *)
Theorem refreshLimits_outcomes (s : State) (w : W) :
  loading s = false ->
  let o := run serve refreshLimits s w in
  o_result o = inr tt /\
  (exists rest, o_trace o = Requested (fetchLimits (currentFilter s)) :: rest) /\
  (forall error w', serve _ (fetchLimits (currentFilter s)) w = (inl error, w') ->
     o_state o = s) /\
  (forall fetched w', serve _ (fetchLimits (currentFilter s)) w = (inr fetched, w') ->
     o_state o = set_isLoaded true (set_limits fetched s)).
Proof.
  intros Hidle o. subst o. rewrite run_refreshLimits.
  rewrite (run_loadLimits_fetch serve s w (currentFilter s) true eq_refl Hidle).
  destruct (serve _ (fetchLimits (currentFilter s)) w) as [[e|fetched] w'].
  - split; [reflexivity|]. split; [eexists; reflexivity|].
    split; [|intros ? ? [=]].
    intros _ _ _. cbn [o_state]. now apply set_loading_restore.
  - split; [reflexivity|]. split; [eexists; reflexivity|].
    split; [intros ? ? [=]|].
    intros fetched' w'' [= <- <-]. cbn [o_state].
    destruct s. cbn in *. now subst.
Qed.

(** X3. A rejected fetch is remembered differently on a loaded and on a
    never loaded store.  On a loaded store the filter of the failed load
    stays recorded, so the next non-forced load of that filter asks
    nothing of the remote and keeps showing the earlier contents.  On a
    store that was never loaded, the next load of that filter fetches
    again. *)
Theorem loadLimits_after_rejected_fetch
    (s : State) (w w1 w2 : W) (f : option GetLimitsParams) (force : bool)
    (error : Err) :
  cache_hit s f force = false ->
  loading s = false ->
  serve _ (fetchLimits f) w = (inl error, w1) ->
  let o1 := run serve (loadLimits f force) s w in
  let o2 := run serve (loadLimits f false) (o_state o1) w2 in
  (isLoaded s = true ->
   o_trace o2 = [] /\ limits (o_state o2) = limits s /\
   currentFilter (o_state o2) = f) /\
  (isLoaded s = false ->
   exists rest, o_trace o2 = Requested (fetchLimits f) :: rest).
Proof.
  intros Hmiss Hidle Hfetch o1 o2. subst o2 o1.
  rewrite (run_loadLimits_fetch serve s w f force Hmiss Hidle), Hfetch.
  cbn [o_state]. split; intros Hloaded.
  - rewrite run_loadLimits_hit.
    + repeat split; reflexivity.
    + unfold cache_hit. cbn. now rewrite Hloaded, filterChanged_same.
  - rewrite run_loadLimits_fetch.
    + destruct (serve _ (fetchLimits f) w2) as [[e|fetched] w3];
        eexists; reflexivity.
    + unfold cache_hit. cbn. rewrite Hloaded. now destruct force.
    + reflexivity.
Qed.

(** X4. When the request of a create, update or delete is rejected, the
    store function sends nothing else (no fetch), logs the error, clears
    the busy flag, keeps the contents, the loaded flag and the recorded
    filter, and throws the rejection to its caller. *)
Theorem mutation_rejected (s : State) (w w1 : W) (m : Mutation) (error : Err) :
  serve _ (request_of m) w = (inl error, w1) ->
  let o := run serve (perform m) s w in
  o_result o = inl error /\
  o_trace o = [Requested (request_of m);
               Emitted (console_error (failure_message m) error)] /\
  fetches (o_trace o) = 0 /\
  o_state o = set_loading false s /\
  o_world o = w1.
Proof.
  intros Hmut o. subst o. rewrite run_perform, Hmut.
  split; [reflexivity|]. split; [reflexivity|].
  split; [now destruct m|]. split; [|reflexivity].
  cbn. now destruct s.
Qed.

(** X5. The mutations do not look at the busy flag and clear it when they
    end.  So when a create, update or delete runs while the fetch of a
    load is pending, the busy flag is cleared although that fetch has not
    settled, and a forced load made then issues a second fetch. *)
Theorem mutation_releases_pending_load
    (s : State) (w : W) (p p2 : option GetLimitsParams) (force : bool)
    (m : Mutation) :
  loading s = false ->
  cache_hit s p force = false ->
  let s1 := fst (fst (start (loadLimits p force) s)) in
  let o := run serve (perform m) s1 w in
  loading s1 = true /\
  snd (fst (start (loadLimits p force) s)) = [Requested (fetchLimits p)] /\
  loading (o_state o) = false /\
  snd (fst (start (loadLimits p2 true) (o_state o))) = [Requested (fetchLimits p2)].
Proof.
  intros Hidle Hmiss s1 o.
  assert (Hs1 : start (loadLimits p force) s
                = (set_currentFilter p (set_loading true s),
                   [Requested (fetchLimits p)],
                   snd (start (loadLimits p force) s))).
  { unfold loadLimits. cbn. unfold cache_hit in Hmiss. rewrite Hmiss. cbn.
    rewrite Hidle. reflexivity. }
  subst o s1. rewrite Hs1. cbn [fst snd].
  split; [reflexivity|]. split; [reflexivity|].
  assert (Hclear : loading (o_state (run serve (perform m)
                     (set_currentFilter p (set_loading true s)) w)) = false).
  { rewrite run_perform.
    destruct (serve _ (request_of m) w) as [[e|[]] w1]; [reflexivity|].
    destruct (serve _ (fetchLimits _) w1) as [[e|fetched] w2]; reflexivity. }
  split; [exact Hclear|].
  unfold loadLimits. cbn. rewrite Hclear. reflexivity.
Qed.

Lemma run_handleSubmit (h : Js.Host) (formData : LimitFormData)
    (categoryId : string) (s : State) (w : W) :
  run serve (handleSubmit h formData categoryId) s w =
  let m := match editingLimit s with
           | Some limit => Update (id limit) (convertFormDataToUpdateData h formData)
           | None => Create (convertFormDataToCreateData h formData categoryId)
           end in
  let o := run serve (perform m) s w in
  match o_result o with
  | inl error => o
  | inr _ =>
      mkOut (set_drawerVisible false
               (match editingLimit s with
                | Some _ => set_editingLimit None (o_state o)
                | None => o_state o
                end))
            (o_world o) (o_trace o) (inr tt)
  end.
Proof.
  unfold handleSubmit. cbn [bind read run].
  destruct (editingLimit s) as [limit|] eqn:Hed; cbn zeta.
  - rewrite !run_bind. cbn [perform].
    destruct (run serve (updateLimit _ _) s w) as [s' w' tr [e|[]]]; cbn.
    + reflexivity.
    + now rewrite !app_nil_r.
  - rewrite run_bind. cbn [perform].
    destruct (run serve (addLimit _) s w) as [s' w' tr [e|[]]]; cbn.
    + reflexivity.
    + now rewrite app_nil_r.
Qed.

(** X6. Submitting the form with an edit session open performs the update
    of the edited limit and nothing else.  When the update returns, the
    edit session is over and the drawer is closed.  When it throws, the
    submission throws the same error and the edit session and the drawer
    are left as they were, so the form stays open on the same limit. *)
Theorem handleSubmit_edit_session
    (h : Js.Host) (formData : LimitFormData) (categoryId : string)
    (s : State) (w : W) (limit : Limit) :
  editingLimit s = Some limit ->
  let u := run serve (updateLimit (id limit) (convertFormDataToUpdateData h formData)) s w in
  let o := run serve (handleSubmit h formData categoryId) s w in
  o_trace o = o_trace u /\ o_world o = o_world u /\
  (o_result u = inr tt ->
   o_result o = inr tt /\
   editingLimit (o_state o) = None /\ drawerVisible (o_state o) = false /\
   limits (o_state o) = limits (o_state u)) /\
  (forall error, o_result u = inl error ->
   o_result o = inl error /\
   editingLimit (o_state o) = Some limit /\
   drawerVisible (o_state o) = drawerVisible s /\
   limits (o_state o) = limits s).
Proof.
  intros Hed u o. subst u o. rewrite run_handleSubmit, Hed. cbn zeta.
  change (updateLimit (id limit) (convertFormDataToUpdateData h formData))
    with (perform (Update (id limit) (convertFormDataToUpdateData h formData))).
  set (m := Update (id limit) (convertFormDataToUpdateData h formData)).
  rewrite run_perform.
  destruct (serve _ (request_of m) w) as [[e|[]] w1].
  - cbn. split; [reflexivity|]. split; [reflexivity|]. split; [discriminate|].
    intros error [= <-]. split; [reflexivity|]. split; [exact Hed|].
    split; reflexivity.
  - destruct (serve _ (fetchLimits (currentFilter s)) w1) as [[e|fetched] w2]; cbn.
    + split; [reflexivity|]. split; [reflexivity|]. split; [discriminate|].
      intros error [= <-]. split; [reflexivity|]. split; [exact Hed|].
      split; reflexivity.
    + split; [reflexivity|]. split; [reflexivity|]. split; [|discriminate].
      intros _. repeat split; reflexivity.
Qed.

(** X7. An edit session is used up by the submission that succeeds: the
    next submission of the form is a create, for the category it is given,
    and not a second update of the limit edited before. *)
Theorem handleSubmit_after_edit_creates
    (h h' : Js.Host) (formData formData' : LimitFormData)
    (categoryId categoryId' : string) (s : State) (w w1 w2 : W)
    (limit : Limit) (fetched : list Limit) :
  editingLimit s = Some limit ->
  serve _ (updateLimitRequest (id limit) (convertFormDataToUpdateData h formData)) w
    = (inr tt, w1) ->
  serve _ (fetchLimits (currentFilter s)) w1 = (inr fetched, w2) ->
  let o1 := run serve (handleSubmit h formData categoryId) s w in
  let o2 := run serve (handleSubmit h' formData' categoryId') (o_state o1) (o_world o1) in
  o_result o1 = inr tt /\
  exists rest,
    o_trace o2
    = Requested (addLimitRequest (convertFormDataToCreateData h' formData' categoryId'))
      :: rest.
Proof.
  intros Hed Hupdate Hfetch o1 o2. subst o2 o1.
  rewrite (run_handleSubmit h), Hed. cbn zeta.
  change (perform (Update (id limit) (convertFormDataToUpdateData h formData)))
    with (updateLimit (id limit) (convertFormDataToUpdateData h formData)).
  pose proof (run_perform serve s w
                (Update (id limit) (convertFormDataToUpdateData h formData))) as Hrun.
  cbn [perform request_of] in Hrun. rewrite Hupdate, Hfetch in Hrun.
  rewrite Hrun. cbn [o_result o_state o_world].
  split; [reflexivity|].
  rewrite run_handleSubmit. cbn [editingLimit set_drawerVisible set_editingLimit].
  cbn zeta. rewrite run_perform. cbn [request_of].
  destruct (serve _ (addLimitRequest _) w2) as [[e|[]] w3].
  - eexists. reflexivity.
  - destruct (serve _ (fetchLimits _) w3) as [[e|fetched'] w4]; eexists; reflexivity.
Qed.

End StoreFacts.

(* ================================================================= *)
(** ** The transactions page: selection, details, edit form, life cycle *)

Section PageMoreFacts.

Import TransactionsPage TransactionsPageMore.

Context {W : Type} (serve : forall R : Type, TransactionsPage.Request R -> W -> (Err + R) * W)
        (shown : W -> list Transaction).

Context {W' : Type}
        (serve' : forall R : Type, TransactionsPageMore.Request R -> W' -> (Err + R) * W').



(** X9. Deselecting a transaction removes its identifier from the
    selection altogether and keeps the other identifiers in their order;
    selecting a transaction that was not selected and deselecting it
    again gives back the page as it was. *)
Theorem select_then_deselect (s : State) (w : W) (x : Transaction) :
  let s1 := o_state (run serve (handleSelect x true) s w) in
  let s2 := o_state (run serve (handleSelect x false) s1 w) in
  selectedIds s1 = (selectedIds s ++ [id x])%list /\
  ~ In (id x) (selectedIds s2) /\
  (forall i, i <> id x -> (In i (selectedIds s2) <-> In i (selectedIds s))) /\
  (~ In (id x) (selectedIds s) -> s2 = s).
Proof.
  cbn zeta. cbn.
  split; [reflexivity|]. split; [|split].
  - intros H. apply filter_In in H as [_ H]. now rewrite String.eqb_refl in H.
  - intros i Hi. rewrite filter_In, in_app_iff. cbn.
    rewrite (proj2 (String.eqb_neq i (id x)) Hi). cbn. split.
    + intros [[H|[H|[]]] _]; [exact H | congruence].
    + intros H. split; [now left | reflexivity].
  - intros Hnot.
    assert (Hf : List.filter (fun i => negb (String.eqb i (id x)))
                   (selectedIds s ++ [id x])%list = selectedIds s).
    { rewrite filter_app. cbn. rewrite String.eqb_refl. cbn. rewrite app_nil_r.
      apply forallb_filter_id. apply forallb_forall. intros i Hi.
      apply negb_true_iff, String.eqb_neq. intros ->. contradiction. }
    rewrite Hf. now destruct s.
Qed.

(** X10. When the bulk removal is accepted but the refresh that follows
    is rejected, the user is shown the delete-error toast and no success
    toast, although the page has already left selection mode and emptied
    the selection.  The success toast appears only when both are accepted,
    and counts the identifiers that were selected. *)
Theorem handleMassDelete_refresh_outcome (s : State) (w w1 : W) :
  selectedIds s <> [] ->
  serve _ (removeTransactions (selectedIds s)) w = (inr tt, w1) ->
  let o := run serve handleMassDelete s w in
  (forall error w2,
     serve _ TransactionsPage.refreshTransactions w1 = (inl error, w2) ->
     o_trace o = [Requested (removeTransactions (selectedIds s));
                  Requested TransactionsPage.refreshTransactions;
                  Emitted (toast_error (t "common.error") (t "transactions.deleteError"))] /\
     selectionMode (o_state o) = false /\ selectedIds (o_state o) = []) /\
  (forall w2,
     serve _ TransactionsPage.refreshTransactions w1 = (inr tt, w2) ->
     o_trace o = [Requested (removeTransactions (selectedIds s));
                  Requested TransactionsPage.refreshTransactions;
                  Emitted (toast_success (t "common.success")
                             (t_count "transactions.massDeleteSuccess"
                                (List.length (selectedIds s))))]).
Proof.
  intros Hne Hrm o. subst o.
  rewrite (run_handleMassDelete_nonempty serve s w Hne), Hrm. cbn zeta.
  split.
  - intros error w2 Href. rewrite Href. repeat split; reflexivity.
  - intros w2 Href. rewrite Href. reflexivity.
Qed.

Lemma run_handleRemoveTransaction (s : State) (w : W') (x : Transaction) :
  selectedTransaction s = Some x ->
  run serve' handleRemoveTransaction s w =
  match serve' _ (removeTransaction (id x)) w with
  | (inl error, w1) =>
      mkOut s w1
        [Requested (removeTransaction (id x));
         Emitted (toast_error (t "common.error") (t "transactions.deleteError"))]
        (inr tt)
  | (inr _, w1) =>
      let s' := set_selectedTransaction None (set_detailsDrawerVisible false s) in
      match serve' _ refreshTransactions w1 with
      | (inl error, w2) =>
          mkOut s' w2
            [Requested (removeTransaction (id x)); Requested refreshTransactions;
             Emitted (toast_error (t "common.error") (t "transactions.deleteError"))]
            (inr tt)
      | (inr _, w2) =>
          mkOut s' w2
            [Requested (removeTransaction (id x)); Requested refreshTransactions;
             Emitted (toast_success (t "common.success")
                        (t "transactions.deleteSuccess"))]
            (inr tt)
      end
  end.
Proof.
  intros Hsel. unfold handleRemoveTransaction. cbn. rewrite Hsel. cbn.
  destruct (serve' _ (removeTransaction (id x)) w) as [[e|[]] w1]; cbn.
  - reflexivity.
  - destruct (serve' _ refreshTransactions w1) as [[e|[]] w2]; reflexivity.
Qed.

(** X11. Removing the transaction shown in the details drawer never
    throws.  With no transaction selected it does nothing.  Otherwise it
    asks for the removal of that transaction; when the removal is
    rejected the drawer stays open on the transaction, nothing is
    refreshed and an error toast is shown; when it is accepted the drawer
    is closed and the selection dropped before the refresh is asked for. *)
Theorem handleRemoveTransaction_outcomes (s : State) (w : W') :
  let o := run serve' handleRemoveTransaction s w in
  o_result o = inr tt /\
  (selectedTransaction s = None -> o_state o = s /\ o_trace o = []) /\
  (forall x, selectedTransaction s = Some x ->
     (forall error w1, serve' _ (removeTransaction (id x)) w = (inl error, w1) ->
        o_state o = s /\
        o_trace o = [Requested (removeTransaction (id x));
                     Emitted (toast_error (t "common.error")
                                (t "transactions.deleteError"))]) /\
     (forall w1, serve' _ (removeTransaction (id x)) w = (inr tt, w1) ->
        detailsDrawerVisible (o_state o) = false /\
        selectedTransaction (o_state o) = None /\
        exists last,
          o_trace o = [Requested (removeTransaction (id x));
                       Requested refreshTransactions; last])).
Proof.
  cbn zeta. destruct (selectedTransaction s) as [x|] eqn:Hsel.
  - rewrite (run_handleRemoveTransaction s w x Hsel).
    destruct (serve' _ (removeTransaction (id x)) w) as [[e|[]] w1] eqn:Hrm.
    + split; [reflexivity|]. split; [discriminate|].
      intros x' [= <-]. rewrite Hrm. split; [|intros ? [=]].
      intros error w1' [= <- <-]. split; reflexivity.
    + cbn zeta.
      destruct (serve' _ refreshTransactions w1) as [[e|[]] w2];
        (split; [reflexivity|]); (split; [discriminate|]);
        intros x' [= <-]; rewrite Hrm; (split; [intros ? ? [=]|]); intros w1' _;
        (split; [reflexivity|]); (split; [reflexivity|]); eexists; reflexivity.
  - unfold handleRemoveTransaction. cbn. rewrite Hsel. cbn.
    split; [reflexivity|]. split; [now split|]. intros x [=].
Qed.



(** X13. On mount the page first loads the categories.  When that is
    rejected, the hook throws the rejection and the filters are not
    reset.  When it resolves, the filters are reset exactly when the page
    was not opened from the chart. *)
Theorem onMounted_outcomes (s : State) (w : W') (fromChart : bool) :
  let o := run serve' (onMounted fromChart) s w in
  o_state o = s /\
  (forall error w1, serve' _ loadCategories w = (inl error, w1) ->
     o_result o = inl error /\ o_trace o = [Requested loadCategories]) /\
  (forall w1, serve' _ loadCategories w = (inr tt, w1) ->
     (fromChart = true ->
      o_trace o = [Requested loadCategories] /\ o_result o = inr tt) /\
     (fromChart = false ->
      o_trace o = [Requested loadCategories; Requested resetFilters] /\
      o_result o = fst (serve' _ resetFilters w1))).
Proof.
  cbn zeta. unfold onMounted, await. cbn.
  destruct (serve' _ loadCategories w) as [[e|[]] w1]; cbn.
  - split; [reflexivity|]. split; [|intros ? [=]].
    intros error w1' [= <- <-]. split; reflexivity.
  - destruct fromChart; cbn.
    + split; [reflexivity|]. split; [intros ? ? [=]|].
      intros w1' _. split; [intros _; split; reflexivity | discriminate].
    + destruct (serve' _ resetFilters w1) as [[e|[]] w2] eqn:Hreset; cbn;
        (split; [reflexivity|]); (split; [intros ? ? [=]|]);
        intros w1' [= <-]; rewrite Hreset;
        (split; [discriminate | intros _; split; reflexivity]).
Qed.

End PageMoreFacts.

(* ================================================================= *)
(** ** The sorted view of the limits *)

Section ViewFacts.

Import LimitsStore LimitsView.

Context (getTime : string -> option Z).

#[local] Abbreviation cmp := (compare_created getTime).
#[local] Abbreviation time := (time_of getTime).

Lemma insert_perm (x : Limit) (l : list Limit) :
  Permutation (insert cmp x l) (x :: l).
Proof.
  induction l as [|y r IH]; cbn; [reflexivity|].
  destruct (cmp x y <=? 0)%Z; [reflexivity|].
  rewrite IH. apply perm_swap.
Qed.

Lemma Array_sort_perm (l : list Limit) : Permutation (Array_sort cmp l) l.
Proof.
  induction l as [|x r IH]; cbn; [reflexivity|].
  rewrite insert_perm. now constructor.
Qed.

Lemma compare_dated (a b : Limit) :
  getTime (created_at a) <> None -> getTime (created_at b) <> None ->
  cmp a b = (time b - time a)%Z.
Proof.
  unfold compare_created, time_of.
  destruct (getTime (created_at a)), (getTime (created_at b)); cbn; congruence.
Qed.

Lemma insert_sorted (x : Limit) (l : list Limit) :
  getTime (created_at x) <> None -> dated getTime l ->
  Sorted (fun a b => (time b <= time a)%Z) l ->
  Sorted (fun a b => (time b <= time a)%Z) (insert cmp x l).
Proof.
  intros Hx Hl Hs. induction Hs as [|y r Hs IH Hhd]; cbn.
  - repeat constructor.
  - assert (Hy : getTime (created_at y) <> None) by (apply Hl; now left).
    rewrite (compare_dated x y Hx Hy).
    destruct (Z.leb_spec (time y - time x) 0).
    + constructor; [now constructor|]. constructor. lia.
    + assert (Hr : dated getTime r) by (intros z Hz; apply Hl; now right).
      constructor; [now apply IH|].
      destruct r as [|z r']; cbn.
      * constructor. lia.
      * assert (Hz : getTime (created_at z) <> None) by (apply Hr; now left).
        rewrite (compare_dated x z Hx Hz).
        destruct (Z.leb_spec (time z - time x) 0); constructor;
          [lia | now inversion Hhd].
Qed.

Lemma insert_filter (p : Z -> bool) (x : Limit) (l : list Limit) :
  getTime (created_at x) <> None -> dated getTime l ->
  List.filter (fun a => p (time a)) (insert cmp x l)
  = List.filter (fun a => p (time a)) (x :: l) \/
  exists y, In y l /\ time y <> time x /\ p (time y) = true /\ p (time x) = true.
Proof.
  intros Hx Hl. induction l as [|y r IH]; cbn; [now left|].
  assert (Hy : getTime (created_at y) <> None) by (apply Hl; now left).
  rewrite (compare_dated x y Hx Hy).
  destruct (Z.leb_spec (time y - time x) 0); [now left|].
  destruct IH as [IH|(z & Hz & Hne & Pz & Px)].
  - intros z Hz. apply Hl. now right.
  - cbn in *. rewrite IH.
    destruct (p (time y)) eqn:Py; destruct (p (time x)) eqn:Px; try now left.
    right. exists y. repeat split; auto. lia.
  - right. exists z. repeat split; auto.
Qed.

(** X14. The sorted view holds exactly the limits of the store, each as
    often as the store does.  When every creation date parses, the view
    is in descending order of creation time and limits created at the
    same time keep the order they have in the store. *)
Theorem sortedLimits_sorted (s : State) :
  Permutation (sortedLimits getTime s) (limits s) /\
  (dated getTime (limits s) ->
   StronglySorted (fun a b => (time b <= time a)%Z) (sortedLimits getTime s) /\
   forall z : Z,
     List.filter (fun a => Z.eqb (time a) z) (sortedLimits getTime s)
     = List.filter (fun a => Z.eqb (time a) z) (limits s)).
Proof.
  unfold sortedLimits. split; [apply Array_sort_perm|].
  intros Hd. split.
  - apply Sorted_StronglySorted; [intros a b c; lia|].
    induction (limits s) as [|x r IH]; cbn; [constructor|].
    apply insert_sorted.
    + apply Hd. now left.
    + intros y Hy. apply Hd. right.
      now apply (Permutation_in _ (Array_sort_perm r)).
    + apply IH. intros y Hy. apply Hd. now right.
  - intros z. induction (limits s) as [|x r IH]; cbn [Array_sort]; [reflexivity|].
    assert (Hr : dated getTime r) by (intros y Hy; apply Hd; now right).
    destruct (insert_filter (fun t => Z.eqb t z) x (Array_sort cmp r)) as [H|H].
    + apply Hd. now left.
    + intros y Hy. apply Hr. now apply (Permutation_in _ (Array_sort_perm r)).
    + rewrite H. cbn. now rewrite (IH Hr).
    + destruct H as (y & _ & Hne & Py & Px).
      apply Z.eqb_eq in Py, Px. congruence.
Qed.

End ViewFacts.

(* ================================================================= *)
(** ** The timer of the refresh scheduler *)

Section TimerFacts.

Import RefreshTimer.

Lemma clear_own (e0 : Env) (h : nat) (d : Z) :
  (forall t, In t (timers e0) -> fst t < next_handle e0) ->
  next_handle e0 <= h ->
  List.filter (fun t => negb (Nat.eqb (fst t) h)) ((h, d) :: timers e0) = timers e0.
Proof.
  intros Hold Hh. cbn. rewrite Nat.eqb_refl. cbn.
  apply forallb_filter_id. apply forallb_forall. intros t Ht.
  apply negb_true_iff, Nat.eqb_neq. specialize (Hold t Ht). lia.
Qed.

Lemma apply_kept (e0 e : Env) (op : Op) :
  1 <= next_handle e0 ->
  (forall t, In t (timers e0) -> fst t < next_handle e0) ->
  kept e0 e -> kept e0 (apply op e).
Proof.
  intros Hpos Hold (Hnext & Htimers & Hown). unfold kept, own in *.
  destruct op; cbn [apply]; unfold startAutoRefresh, stopAutoRefresh, truthy.
  - destruct (refreshInterval e) as [h|] eqn:Hri.
    + destruct Hown as [Hh1 Hh]. destruct (Nat.eqb_spec h 0) as [->|_]; [lia|].
      cbn. rewrite Htimers. cbn [app]. rewrite (clear_own e0 h _ Hold) by lia.
      repeat split; lia.
    + cbn. rewrite Htimers. repeat split; lia.
  - destruct (refreshInterval e) as [h|] eqn:Hri.
    + destruct Hown as [Hh1 Hh]. destruct (Nat.eqb_spec h 0) as [->|_]; [lia|].
      cbn. rewrite Htimers. cbn [app]. rewrite (clear_own e0 h _ Hold) by lia.
      repeat split; lia.
    + cbn. rewrite Hri. repeat split; auto.
Qed.

Lemma apply_all_kept (ops : list Op) (e0 e : Env) :
  1 <= next_handle e0 ->
  (forall t, In t (timers e0) -> fst t < next_handle e0) ->
  kept e0 e -> kept e0 (apply_all ops e).
Proof.
  intros Hpos Hold. revert e. induction ops as [|op ops IH]; intros e Hk; cbn.
  - exact Hk.
  - apply IH. now apply apply_kept.
Qed.

(** X15. Whatever sequence of [startAutoRefresh] and [stopAutoRefresh]
    calls is made, the composable holds at most one timer, which is the
    one [refreshInterval] names and ticks every minute, and the timers of
    the rest of the page are untouched; a start right after a start
    replaces the timer instead of adding one, and after a stop the
    composable holds no timer. *)
Theorem auto_refresh_holds_one_timer (ops : list Op) (e0 : Env) :
  fresh e0 ->
  let e := apply_all ops e0 in
  timers e = (own e ++ timers e0)%list /\
  timers (startAutoRefresh e)
    = ((next_handle e, REFRESH_INTERVAL) :: timers e0)%list /\
  refreshInterval (startAutoRefresh e) = Some (next_handle e) /\
  timers (stopAutoRefresh e) = timers e0 /\
  refreshInterval (stopAutoRefresh e) = None.
Proof.
  intros (Hpos & Hold & Hnone) e.
  assert (Hk : kept e0 e).
  { apply apply_all_kept; auto. unfold kept, own. rewrite Hnone. cbn. auto. }
  pose proof (apply_kept e0 e Start Hpos Hold Hk) as (_ & Hstart & _).
  pose proof (apply_kept e0 e Stop Hpos Hold Hk) as (_ & Hstop & _).
  destruct Hk as (Hnext & Htimers & Hown).
  split; [exact Htimers|].
  assert (Hri : refreshInterval (startAutoRefresh e) = Some (next_handle e)).
  { unfold startAutoRefresh, truthy.
    destruct (refreshInterval e) as [h|]; [destruct (Nat.eqb h 0)|]; reflexivity. }
  assert (Hrs : refreshInterval (stopAutoRefresh e) = None).
  { unfold stopAutoRefresh, truthy, own in *.
    destruct (refreshInterval e) as [h|] eqn:Hh; cbn.
    - destruct Hown as [Hh1 _]. destruct (Nat.eqb_spec h 0) as [->|_]; [lia|].
      reflexivity.
    - exact Hh. }
  cbn [apply] in Hstart, Hstop. unfold own in Hstart, Hstop.
  rewrite Hri in Hstart. rewrite Hrs in Hstop.
  repeat split; assumption.
Qed.

End TimerFacts.

(* ================================================================= *)
(** ** The navigation guard *)

Section GuardFacts.

Import SubscriptionMiddleware.

Context {W : Type} (serve : forall R : Type, Request R -> W -> (Err + R) * W).

(** X16. The guard never throws.  It asks once for the user, forced; when
    that resolves the navigation proceeds, and when it is rejected, for
    whatever reason, the rejection is logged and the navigation is sent
    to the [login] route. *)
Theorem subscriptionMiddleware_outcomes (w : W) :
  let o := run serve subscriptionMiddleware tt w in
  (forall w1, serve _ (loadUser true) w = (inr tt, w1) ->
     o_result o = inr Proceed /\ o_trace o = [Requested (loadUser true)]) /\
  (forall error w1, serve _ (loadUser true) w = (inl error, w1) ->
     o_result o = inr (RedirectTo "login") /\
     o_trace o = [Requested (loadUser true);
                  Emitted (console_error
                             "Failed to load user in subscription middleware:" error)]) /\
  (o_result o = inr Proceed \/ o_result o = inr (RedirectTo "login")).
Proof.
  cbn zeta. unfold subscriptionMiddleware, await. cbn.
  destruct (serve _ (loadUser true) w) as [[e|[]] w1]; cbn.
  - split; [intros ? [=]|]. split; [|now right].
    intros error w1' [= <- <-]. split; reflexivity.
  - split; [|split; [intros ? ? [=] | now left]].
    intros w1' _. split; reflexivity.
Qed.

End GuardFacts.

(* ================================================================= *)
(** ** The calendar: dates read back, and the period of a limit *)

Section CalendarFacts.

Import Js Calendar.

Local Open Scope Z_scope.






















End CalendarFacts.

(* ================================================================= *)
(** ** Further examples *)

Section MoreExamples.

Import LimitsStore Fixtures MoreFixtures.

Lemma loadLimits_other_filter_replaces_example :
  let o1 := run LimitsRemote.serve (loadLimits by_food false) initial remote_up in
  let o2 := run LimitsRemote.serve (loadLimits by_rent false) (o_state o1) (o_world o1) in
  filterChanged by_food by_rent = true /\
  (o_trace o1 ++ o_trace o2)%list
    = [Requested (fetchLimits by_food); Requested (fetchLimits by_rent)] /\
  limits (o_state o2) = [rent] /\
  currentFilter (o_state o2) = by_rent.
Proof.
  cbn zeta. split; [reflexivity|].
  pose proof (loadLimits_other_filter_replaces LimitsRemote.serve initial
                remote_up remote_up remote_up by_food by_rent false [food] [rent]
                eq_refl eq_refl eq_refl eq_refl eq_refl) as (Ht & Hl & Hf & _).
  split; [exact Ht|]. split; [exact Hl | exact Hf].
Defined.

Lemma refreshLimits_outcomes_example :
  loading loaded_food = false /\
  o_state (run LimitsRemote.serve refreshLimits loaded_food remote_down) = loaded_food /\
  o_state (run LimitsRemote.serve refreshLimits initial remote_up)
    = set_isLoaded true (set_limits [food; rent] initial).
Proof.
  split; [reflexivity|].
  pose proof (refreshLimits_outcomes LimitsRemote.serve loaded_food remote_down eq_refl)
    as (_ & _ & Hfail & _).
  pose proof (refreshLimits_outcomes LimitsRemote.serve initial remote_up eq_refl)
    as (_ & _ & _ & Hok).
  split.
  - apply (Hfail "Network Error" remote_down). reflexivity.
  - apply (Hok [food; rent] remote_up). reflexivity.
Defined.

Lemma loadLimits_after_rejected_fetch_example :
  let o1 := run LimitsRemote.serve (loadLimits by_rent false) loaded_food remote_down in
  let o2 := run LimitsRemote.serve (loadLimits by_rent false) (o_state o1) remote_up in
  cache_hit loaded_food by_rent false = false /\
  LimitsRemote.serve _ (fetchLimits by_rent) remote_down
    = (inl "Network Error", remote_down) /\
  o_trace o2 = [] /\ limits (o_state o2) = [food] /\
  currentFilter (o_state o2) = by_rent.
Proof.
  cbn zeta. split; [reflexivity|]. split; [reflexivity|].
  pose proof (loadLimits_after_rejected_fetch LimitsRemote.serve loaded_food
                remote_down remote_down remote_up by_rent false "Network Error"
                eq_refl eq_refl eq_refl) as [Hstale _].
  exact (Hstale eq_refl).
Defined.

Lemma mutation_rejected_example :
  let o := run LimitsRemote.serve (perform (Delete "L1")) loaded_food remote_readonly in
  LimitsRemote.serve _ (request_of (Delete "L1")) remote_readonly
    = (inl "Network Error", remote_readonly) /\
  o_result o = inl "Network Error" /\
  fetches (o_trace o) = 0 /\
  o_state o = loaded_food.
Proof.
  cbn zeta. split; [reflexivity|].
  pose proof (mutation_rejected LimitsRemote.serve loaded_food remote_readonly
                remote_readonly (Delete "L1") "Network Error" eq_refl)
    as (Hr & _ & Hf & Hs & _).
  split; [exact Hr|]. split; [exact Hf | exact Hs].
Defined.

Lemma mutation_releases_pending_load_example :
  let s1 := fst (fst (start (loadLimits by_food false) initial)) in
  let o := run LimitsRemote.serve (perform (Delete "L1")) s1 remote_up in
  loading initial = false /\ cache_hit initial by_food false = false /\
  loading s1 = true /\
  loading (o_state o) = false /\
  snd (fst (start (loadLimits by_food true) (o_state o)))
    = [Requested (fetchLimits by_food)].
Proof.
  cbn zeta. split; [reflexivity|]. split; [reflexivity|].
  pose proof (mutation_releases_pending_load LimitsRemote.serve initial remote_up
                by_food by_food false (Delete "L1") eq_refl eq_refl)
    as (H1 & _ & H2 & H3).
  split; [exact H1|]. split; [exact H2 | exact H3].
Defined.

Lemma handleSubmit_edit_session_example :
  let ok := run LimitsRemote.serve (handleSubmit host_utc form_100000 "food")
              editing_food remote_up in
  let ko := run LimitsRemote.serve (handleSubmit host_utc form_100000 "food")
              editing_food remote_readonly in
  editingLimit editing_food = Some food /\
  editingLimit (o_state ok) = None /\ drawerVisible (o_state ok) = false /\
  o_result ko = inl "Network Error" /\
  editingLimit (o_state ko) = Some food /\ drawerVisible (o_state ko) = true.
Proof.
  cbn zeta. split; [reflexivity|].
  pose proof (handleSubmit_edit_session LimitsRemote.serve host_utc form_100000
                "food" editing_food remote_up food eq_refl) as (_ & _ & Hok & _).
  pose proof (handleSubmit_edit_session LimitsRemote.serve host_utc form_100000
                "food" editing_food remote_readonly food eq_refl) as (_ & _ & _ & Hko).
  destruct (Hok eq_refl) as (_ & He & Hd & _).
  destruct (Hko "Network Error" eq_refl) as (Hr & He' & Hd' & _).
  split; [exact He|]. split; [exact Hd|]. split; [exact Hr|].
  split; [exact He' | exact Hd'].
Defined.

Lemma handleSubmit_after_edit_creates_example :
  let o1 := run LimitsRemote.serve (handleSubmit host_utc form_100000 "food")
              editing_food remote_up in
  let o2 := run LimitsRemote.serve (handleSubmit host_utc form_100000 "rent")
              (o_state o1) (o_world o1) in
  editingLimit editing_food = Some food /\
  o_result o1 = inr tt /\
  exists rest,
    o_trace o2
    = Requested (addLimitRequest
                   (convertFormDataToCreateData host_utc form_100000 "rent")) :: rest.
Proof.
  cbn zeta. split; [reflexivity|].
  apply (handleSubmit_after_edit_creates LimitsRemote.serve host_utc host_utc
           form_100000 form_100000 "food" "rent" editing_food remote_up
           (LimitsRemote.update "L1"
              (convertFormDataToUpdateData host_utc form_100000) remote_up)
           (LimitsRemote.update "L1"
              (convertFormDataToUpdateData host_utc form_100000) remote_up)
           food
           [{| id := "L1"; category_id := "food"; amount := "100000";
               period_start := "2024-06-01"; period_end := "2024-06-30";
               created_at := "2024-05-02T10:00:00Z" |}]);
    reflexivity.
Defined.

Lemma sortedLimits_sorted_example :
  LimitsView.dated getTime (limits unsorted) /\
  LimitsView.sortedLimits getTime unsorted = [rent; fuel; food] /\
  Permutation (LimitsView.sortedLimits getTime unsorted) (limits unsorted) /\
  StronglySorted
    (fun a b => (LimitsView.time_of getTime b <= LimitsView.time_of getTime a)%Z)
    (LimitsView.sortedLimits getTime unsorted).
Proof.
  assert (Hd : LimitsView.dated getTime (limits unsorted)).
  { intros x [<-|[<-|[<-|[]]]]; discriminate. }
  pose proof (sortedLimits_sorted getTime unsorted) as [Hperm Hrest].
  destruct (Hrest Hd) as [Hsorted _].
  split; [exact Hd|]. split; [reflexivity|]. split; [exact Hperm | exact Hsorted].
Defined.

Lemma auto_refresh_holds_one_timer_example :
  let e := RefreshTimer.apply_all
             [RefreshTimer.Start; RefreshTimer.Start; RefreshTimer.Stop; RefreshTimer.Start]
             host_timers in
  RefreshTimer.fresh host_timers /\
  RefreshTimer.timers e = (RefreshTimer.own e ++ [(3, 1000%Z)])%list /\
  RefreshTimer.timers (RefreshTimer.stopAutoRefresh e) = [(3, 1000%Z)] /\
  RefreshTimer.refreshInterval (RefreshTimer.stopAutoRefresh e) = None.
Proof.
  assert (Hfresh : RefreshTimer.fresh host_timers).
  { split; [cbn; lia|]. split; [|reflexivity].
    intros t [<-|[]]. cbn. lia. }
  pose proof (auto_refresh_holds_one_timer
                [RefreshTimer.Start; RefreshTimer.Start; RefreshTimer.Stop; RefreshTimer.Start]
                host_timers Hfresh) as (H1 & _ & _ & H2 & H3).
  cbn zeta. split; [exact Hfresh|]. split; [exact H1|]. split; [exact H2 | exact H3].
Defined.

Lemma subscriptionMiddleware_outcomes_example :
  o_result (run accepts_user SubscriptionMiddleware.subscriptionMiddleware tt 1)
    = inr SubscriptionMiddleware.Proceed /\
  o_result (run accepts_user SubscriptionMiddleware.subscriptionMiddleware tt 0)
    = inr (SubscriptionMiddleware.RedirectTo "login").
Proof.
  pose proof (subscriptionMiddleware_outcomes accepts_user 1) as (Hok & _ & _).
  pose proof (subscriptionMiddleware_outcomes accepts_user 0) as (_ & Hko & _).
  split.
  - exact (proj1 (Hok 0 eq_refl)).
  - exact (proj1 (Hko "Unauthorized" 0 eq_refl)).
Defined.



End MoreExamples.

Section MorePageExamples.

Import TransactionsPage TransactionsPageMore PageFixtures MoreFixtures.


Lemma select_then_deselect_example :
  let s1 := o_state (run RefStore.serve (handleSelect salary true) selecting_lunch store_up) in
  let s2 := o_state (run RefStore.serve (handleSelect salary false) s1 store_up) in
  ~ In (id salary) (selectedIds selecting_lunch) /\
  selectedIds s1 = ["t1"; "t2"] /\ s2 = selecting_lunch.
Proof.
  assert (Hnot : ~ In (id salary) (selectedIds selecting_lunch)).
  { intros [H|[]]. discriminate H. }
  pose proof (select_then_deselect RefStore.serve selecting_lunch store_up salary)
    as (H1 & _ & _ & Hback).
  cbn zeta. split; [exact Hnot|]. split; [exact H1 | exact (Hback Hnot)].
Defined.

Lemma handleMassDelete_refresh_outcome_example :
  let o := run accepts_page handleMassDelete selecting_lunch 1 in
  selectedIds selecting_lunch <> [] /\
  accepts_page _ (removeTransactions (selectedIds selecting_lunch)) 1 = (inr tt, 0) /\
  accepts_page _ TransactionsPage.refreshTransactions 0 = (inl "Network Error", 0) /\
  o_trace o = [Requested (removeTransactions ["t1"]);
               Requested TransactionsPage.refreshTransactions;
               Emitted (toast_error (t "common.error") (t "transactions.deleteError"))] /\
  selectionMode (o_state o) = false /\ selectedIds (o_state o) = [].
Proof.
  assert (Hne : selectedIds selecting_lunch <> []) by discriminate.
  pose proof (handleMassDelete_refresh_outcome accepts_page selecting_lunch 1 0
                Hne eq_refl) as [Hko _].
  cbn zeta. split; [exact Hne|]. split; [reflexivity|]. split; [reflexivity|].
  exact (Hko "Network Error" 0 eq_refl).
Defined.

Lemma handleRemoveTransaction_outcomes_example :
  selectedTransaction viewing_lunch = Some lunch /\
  o_state (run accepts_more handleRemoveTransaction viewing_lunch 0) = viewing_lunch /\
  detailsDrawerVisible (o_state (run accepts_more handleRemoveTransaction viewing_lunch 2))
    = false /\
  o_trace (run accepts_more handleRemoveTransaction TransactionsPage.initial 2) = [].
Proof.
  pose proof (handleRemoveTransaction_outcomes accepts_more viewing_lunch 0)
    as (_ & _ & Hko).
  pose proof (handleRemoveTransaction_outcomes accepts_more viewing_lunch 2)
    as (_ & _ & Hok).
  pose proof (handleRemoveTransaction_outcomes accepts_more TransactionsPage.initial 2)
    as (_ & Hnone & _).
  split; [reflexivity|]. split; [|split].
  - exact (proj1 (proj1 (Hko lunch eq_refl) "Network Error" 0 eq_refl)).
  - exact (proj1 (proj2 (Hok lunch eq_refl) 1 eq_refl)).
  - exact (proj2 (Hnone eq_refl)).
Defined.


Lemma onMounted_outcomes_example :
  o_trace (run accepts_more (onMounted true) TransactionsPage.initial 2)
    = [Requested loadCategories] /\
  o_trace (run accepts_more (onMounted false) TransactionsPage.initial 2)
    = [Requested loadCategories; Requested resetFilters] /\
  o_result (run accepts_more (onMounted false) TransactionsPage.initial 0)
    = inl "Network Error".
Proof.
  pose proof (onMounted_outcomes accepts_more TransactionsPage.initial 2 true)
    as (_ & _ & Hchart).
  pose proof (onMounted_outcomes accepts_more TransactionsPage.initial 2 false)
    as (_ & _ & Hbar).
  pose proof (onMounted_outcomes accepts_more TransactionsPage.initial 0 false)
    as (_ & Hko & _).
  split; [|split].
  - exact (proj1 (proj1 (Hchart 1 eq_refl) eq_refl)).
  - exact (proj1 (proj2 (Hbar 1 eq_refl) eq_refl)).
  - exact (proj1 (Hko "Network Error" 0 eq_refl)).
Defined.

End MorePageExamples.
